(** * dimos/simulation/stream.py : the Isaac Sim stream driver

    A shallow embedding of [SimulationStream] (src/dimos/simulation/stream.py)
    and the properties of its setup, streaming loop and cleanup.

    The driver is a thin orchestration layer over three collaborators it does
    not implement: the simulator / replicator, OpenCV's colour conversion and
    the ffmpeg child process behind a pipe.  The embedding keeps the driver's
    own control flow line by line and models the collaborators by the part of
    their documented behaviour the driver can observe:

    - an external call either returns or raises; what it does in a given
      pass of the loop is read from a script ([tick]) supplied by the
      environment.  [KeyboardInterrupt] is one of the exceptions a call can
      raise; since the interrupt surfaces at any point of the body, a call can
      raise with its effect already done ([step_done], [write_sent],
      [flush_sent]), and [tail_fault] stands for the lines after the flush;
    - [proc.stdin] is a buffered writer on a pipe: bytes accepted by [write]
      are either handed to the pipe or kept in the buffer, in order; how many
      go to the pipe in one call is the environment's choice; [flush] hands
      over the buffer or fails part-way; [write] and [flush] on a closed file
      raise [ValueError]; [close] on a closed file does nothing, on an open
      one it flushes first and closes the descriptor also when that flush
      fails, in which case it raises;
    - [Popen.wait] reaps the child once and afterwards returns the stored
      exit status; [simulator.close()] is forwarded to the simulator on every
      call; these two and [print] return;
    - [cv2.cvtColor] with [COLOR_RGBA2BGR] is fixed on four-channel [uint8]
      images only: it raises on an image without pixels and reorders the
      channels otherwise.  What it does with any other input is read from the
      script.

    Clock readings are integers: the driver only subtracts them, and the only
    place where a value is observable in control flow is the division by the
    elapsed time. *)

From Stdlib Require Import ZArith List Ascii String Bool Lia.
From Stdlib Require Import DecimalString DecimalZ DecimalPos.
Import ListNotations.

Local Open Scope string_scope.
Local Open Scope list_scope.
Local Open Scope Z_scope.

(** ** Exceptions and results *)

(** The Python exception classes that occur: the two the driver raises or
    catches itself, those raised by the attribute accesses and the operators it
    uses, and those coming out of collaborators. *)
Inductive exn : Type :=
| KeyboardInterrupt
| RuntimeError (msg : string)
| AttributeError (attr : string)
| ValueError (msg : string)
| ZeroDivisionError
| BrokenPipeError
| cv2_error
| ForeignError (cls : string).

Inductive result (A : Type) : Type :=
| Ok (a : A)
| Raise (e : exn).
Arguments Ok {A} a.
Arguments Raise {A} e.

(** ** Data model *)

(** [AnnotatorType] and [TransportType], lines 23-24. *)
Inductive AnnotatorType : Type := rgb | normals | bounding_box_3d | motion_vectors.
Inductive TransportType : Type := tcp | udp.

Definition AnnotatorType_str (a : AnnotatorType) : string :=
  match a with
  | rgb => "rgb"
  | normals => "normals"
  | bounding_box_3d => "bounding_box_3d"
  | motion_vectors => "motion_vectors"
  end.

Definition TransportType_str (t : TransportType) : string :=
  match t with
  | tcp => "tcp"
  | udp => "udp"
  end.

(** [str(n)] for a Python [int]. *)
Definition str (n : Z) : string := NilZero.string_of_int (Z.to_int n).

(** A USD stage, as far as the driver looks at it: the paths at which
    [GetPrimAtPath] returns a valid prim. *)
Definition Stage : Type := list string.

Definition GetPrimAtPath (stage : Stage) (path : string) : bool :=
  existsb (String.eqb path) stage.

(** The simulator handed to the constructor: the scene [get_stage()] reports
    and the number of [close()] calls it has received. *)
Record Simulator : Type := mkSimulator {
  active_stage : option Stage;
  close_calls : nat
}.

(** What [rep.create.render_product(camera_path, resolution=...)] returns. *)
Record RenderProduct : Type := mkRenderProduct {
  rp_camera : string;
  resolution : Z * Z
}.

(** The [subprocess.Popen] object of the ffmpeg child with [stdin=PIPE]:
    - [args]: the command line it was started with;
    - [stdin_closed]: whether [proc.stdin] has been closed;
    - [stdin_received]: the arguments of the [write()] calls on [proc.stdin]
      that returned, oldest first;
    - [stdin_flushes]: the [flush()] calls that returned;
    - [stdin_buffer]: the bytes [write()] has accepted and the buffered
      writer still holds;
    - [stdin_pipe]: the bytes handed to the pipe, that is what the encoder
      can read from its standard input;
    - [fd_closes]: how often the pipe's descriptor was really closed;
    - [waited]: whether the exit status has been collected;
    - [reaps]: how often the child was really waited for. *)
Record Popen : Type := mkPopen {
  args : list string;
  stdin_closed : bool;
  stdin_received : list (list Byte.byte);
  stdin_flushes : nat;
  stdin_buffer : list Byte.byte;
  stdin_pipe : list Byte.byte;
  fd_closes : nat;
  waited : bool;
  reaps : nat
}.

(** The annotator obtained from the registry and the render product it is
    attached to. *)
Record Annotator : Type := mkAnnotator {
  kind : AnnotatorType;
  attached_to : option RenderProduct
}.

(** The lines the driver prints.  Numbers are kept as the operands of the
    formatted expression. *)
Inductive line : Type :=
| Starting_camera_stream_loop
| Simulation_step_took (step_time : Z)
| Total_frame_processing_took (frame_time : Z)
| Processed_frames (frame_count : Z) (elapsed_time : Z)
| Received_keyboard_interrupt
| Stopping_FFmpeg_process
| Closing_simulation
| Successfully_cleaned_up.

(** The instance.  The first eight fields are assigned on lines 54-61 of
    [__init__]; [stage], [render_product], [proc] and [annotator] are the
    attributes the setup methods create ([None] here: the attribute does not
    exist yet).  [orchestrator_steps] counts the completed
    [rep.orchestrator.step()] calls and [stdout] holds the printed lines,
    oldest first. *)
Record SimulationStream : Type := mkSimulationStream {
  simulator : Simulator;
  width : Z;
  height : Z;
  fps : Z;
  camera_path : string;
  annotator_type : AnnotatorType;
  transport : TransportType;
  rtsp_url : string;
  stage : option Stage;
  render_product : option RenderProduct;
  proc : option Popen;
  annotator : option Annotator;
  orchestrator_steps : nat;
  stdout : list line
}.

Definition set_simulator (x : Simulator) (s : SimulationStream) : SimulationStream :=
  mkSimulationStream x (width s) (height s) (fps s) (camera_path s)
    (annotator_type s) (transport s) (rtsp_url s) (stage s) (render_product s)
    (proc s) (annotator s) (orchestrator_steps s) (stdout s).

Definition set_stage (x : option Stage) (s : SimulationStream) : SimulationStream :=
  mkSimulationStream (simulator s) (width s) (height s) (fps s) (camera_path s)
    (annotator_type s) (transport s) (rtsp_url s) x (render_product s)
    (proc s) (annotator s) (orchestrator_steps s) (stdout s).

Definition set_render_product (x : option RenderProduct) (s : SimulationStream)
  : SimulationStream :=
  mkSimulationStream (simulator s) (width s) (height s) (fps s) (camera_path s)
    (annotator_type s) (transport s) (rtsp_url s) (stage s) x
    (proc s) (annotator s) (orchestrator_steps s) (stdout s).

Definition set_proc (x : option Popen) (s : SimulationStream) : SimulationStream :=
  mkSimulationStream (simulator s) (width s) (height s) (fps s) (camera_path s)
    (annotator_type s) (transport s) (rtsp_url s) (stage s) (render_product s)
    x (annotator s) (orchestrator_steps s) (stdout s).

Definition set_annotator (x : option Annotator) (s : SimulationStream) : SimulationStream :=
  mkSimulationStream (simulator s) (width s) (height s) (fps s) (camera_path s)
    (annotator_type s) (transport s) (rtsp_url s) (stage s) (render_product s)
    (proc s) x (orchestrator_steps s) (stdout s).

Definition set_orchestrator_steps (x : nat) (s : SimulationStream) : SimulationStream :=
  mkSimulationStream (simulator s) (width s) (height s) (fps s) (camera_path s)
    (annotator_type s) (transport s) (rtsp_url s) (stage s) (render_product s)
    (proc s) (annotator s) x (stdout s).

Definition set_stdout (x : list line) (s : SimulationStream) : SimulationStream :=
  mkSimulationStream (simulator s) (width s) (height s) (fps s) (camera_path s)
    (annotator_type s) (transport s) (rtsp_url s) (stage s) (render_product s)
    (proc s) (annotator s) (orchestrator_steps s) x.

(** The configuration part of an instance. *)
Record StreamConfig : Type := mkStreamConfig {
  cfg_width : Z;
  cfg_height : Z;
  cfg_fps : Z;
  cfg_camera_path : string;
  cfg_annotator : AnnotatorType;
  cfg_transport : TransportType;
  cfg_rtsp_url : string
}.

Definition config (s : SimulationStream) : StreamConfig :=
  mkStreamConfig (width s) (height s) (fps s) (camera_path s)
    (annotator_type s) (transport s) (rtsp_url s).

(** ** The state-and-exception monad of the methods *)

Definition M (A : Type) : Type := SimulationStream -> result A * SimulationStream.

Definition ret {A : Type} (a : A) : M A := fun s => (Ok a, s).

Definition raise {A : Type} (e : exn) : M A := fun s => (Raise e, s).

Definition bind {A B : Type} (m : M A) (k : A -> M B) : M B :=
  fun s =>
    match m s with
    | (Ok a, s') => k a s'
    | (Raise e, s') => (Raise e, s')
    end.

Notation "x <- m ;; k" := (bind m (fun x => k))
  (at level 61, m at next level, right associativity).
Notation "m ;; k" := (bind m (fun _ => k))
  (at level 61, right associativity).

Definition get : M SimulationStream := fun s => (Ok s, s).

Definition modify (f : SimulationStream -> SimulationStream) : M unit :=
  fun s => (Ok tt, f s).

(** An external call that either goes through or raises what the environment
    says. *)
Definition external (fault : option exn) : M unit :=
  match fault with
  | None => ret tt
  | Some e => raise e
  end.

Definition print (l : line) : M unit :=
  modify (fun s => set_stdout (stdout s ++ [l]) s).

(** ** Setup *)

(** What the collaborators do during one construction. *)
Record setup_env : Type := mkSetupEnv {
  resolve : string -> string;          (* [str(Path(usd_path).resolve())] *)
  stage_after_open : option Stage;     (* the scene reported once [open_stage] was tried *)
  render_product_fault : option exn;   (* [rep.create.render_product] *)
  popen_fault : option exn;            (* [subprocess.Popen] *)
  get_annotator_fault : option exn;    (* [AnnotatorRegistry.get_annotator] *)
  attach_fault : option exn            (* [annotator.attach] *)
}.

(** [self.simulator.get_stage()] *)
Definition get_stage : M (option Stage) :=
  fun s => (Ok (active_stage (simulator s)), s).

(** [omni.usd.get_context().open_stage(abs_path)] *)
Definition open_stage (env : setup_env) (abs_path : string) : M unit :=
  modify (fun s =>
    set_simulator (mkSimulator (stage_after_open env) (close_calls (simulator s))) s).

(** Lines 76-84. *)
Definition _load_stage (env : setup_env) (usd_path : string) : M unit :=
  let abs_path := resolve env usd_path in
  open_stage env abs_path ;;
  st <- get_stage ;;
  modify (set_stage st) ;;
  match st with
  | None => raise (RuntimeError ("Failed to load stage: " ++ abs_path)%string)
  | Some _ => ret tt
  end.

(** Lines 86-97. *)
Definition _setup_camera (env : setup_env) : M unit :=
  st <- get_stage ;;
  modify (set_stage st) ;;
  self <- get ;;
  match st with
  | None => raise (AttributeError "GetPrimAtPath")
  | Some stg =>
      if negb (GetPrimAtPath stg (camera_path self)) then
        raise (RuntimeError ("Failed to find camera at path: " ++ camera_path self)%string)
      else
        external (render_product_fault env) ;;
        modify (set_render_product
                  (Some (mkRenderProduct (camera_path self) (width self, height self))))
  end.

(** The [command] list of lines 101-116. *)
Definition command (self : SimulationStream) : list string :=
  [ "ffmpeg";
    "-y";
    "-f"; "rawvideo";
    "-vcodec"; "rawvideo";
    "-pix_fmt"; "bgr24";
    "-s"; (str (width self) ++ "x" ++ str (height self))%string;
    "-r"; str (fps self);
    "-i"; "-";
    "-an";
    "-c:v"; "h264_nvenc";
    "-preset"; "fast";
    "-f"; "rtsp";
    "-rtsp_transport"; TransportType_str (transport self);
    rtsp_url self ].

(** A freshly started child with an open pipe. *)
Definition subprocess_Popen (cmd : list string) : Popen :=
  mkPopen cmd false [] 0 [] [] 0 false 0.

(** Lines 99-117. *)
Definition _setup_ffmpeg (env : setup_env) : M unit :=
  self <- get ;;
  external (popen_fault env) ;;
  modify (set_proc (Some (subprocess_Popen (command self)))).

(** Lines 119-122. *)
Definition _setup_annotator (env : setup_env) : M unit :=
  self <- get ;;
  external (get_annotator_fault env) ;;
  modify (set_annotator (Some (mkAnnotator (annotator_type self) None))) ;;
  match render_product self with
  | None => raise (AttributeError "render_product")
  | Some rp =>
      external (attach_fault env) ;;
      modify (set_annotator (Some (mkAnnotator (annotator_type self) (Some rp))))
  end.

(** [if usd_path:] for [None] or a [str]. *)
Definition truthy (usd_path : option string) : bool :=
  match usd_path with
  | None => false
  | Some p => negb (String.eqb p "")
  end.

(** Lines 29-74.  The second component is the instance as the constructor
    leaves it, also when it raises. *)
Definition __init__ (env : setup_env) (simulator : Simulator)
    (width height fps : Z) (camera_path : string) (annotator : AnnotatorType)
    (transport : TransportType) (rtsp_url : string) (usd_path : option string)
  : result unit * SimulationStream :=
  let self :=
    mkSimulationStream simulator width height fps camera_path annotator
      transport rtsp_url None None None None 0 [] in
  ((match usd_path with
    | Some path => if truthy usd_path then _load_stage env path else ret tt
    | None => ret tt
    end) ;;
   _setup_camera env ;;
   _setup_ffmpeg env ;;
   _setup_annotator env) self.

(** ** Frames *)

(** A numpy array of [uint8] with shape [(rows, cols, channels)] and its
    elements in C order. *)
Record ndarray : Type := mkNdarray {
  rows : nat;
  cols : nat;
  channels : nat;
  buf : list Byte.byte
}.

(** The array invariant: as many elements as the shape says. *)
Definition well_shaped (a : ndarray) : Prop :=
  List.length (buf a) = (rows a * cols a * channels a)%nat.

(** What [annotator.get_data()] hands back: a [uint8] image, or anything
    else (an array of another element type, as the [normals] annotator
    yields, or the dict of the [bounding_box_3d] annotator). *)
Inductive pyobj : Type :=
| NDArray (a : ndarray)
| OtherObject.

(** [COLOR_RGBA2BGR] on the element sequence: each pixel [r g b a] becomes
    [b g r]. *)
Fixpoint RGBA2BGR (l : list Byte.byte) : list Byte.byte :=
  match l with
  | r :: g :: b :: _ :: tl => b :: g :: r :: RGBA2BGR tl
  | _ => []
  end.

(** [cv2.cvtColor(frame, cv2.COLOR_RGBA2BGR)].  On a four-channel [uint8]
    image: OpenCV's assertion fails when the image has no pixel, and the
    result is the three-channel image with the channels reordered otherwise.
    On any other input the outcome is [elsewhere], which the environment
    supplies: the result array as far as [tobytes] shows it, or the
    exception. *)
Definition cvtColor (elsewhere : result ndarray) (frame : pyobj)
  : result ndarray :=
  match frame with
  | NDArray a =>
      if (channels a =? 4)%nat then
        if (rows a * cols a =? 0)%nat then Raise cv2_error
        else Ok (mkNdarray (rows a) (cols a) 3 (RGBA2BGR (buf a)))
      else elsewhere
  | OtherObject => elsewhere
  end.

(** [frame.tobytes()] *)
Definition tobytes (a : ndarray) : list Byte.byte := buf a.

(** ** The streaming loop *)

(** What the environment does during one pass through the loop body: the
    clock readings in the order they are taken and, for each external call,
    whether it raises and how far it got. *)
Record tick : Type := mkTick {
  frame_start : Z;                (* line 132 *)
  step_start : Z;                 (* line 135 *)
  step_fault : option exn;        (* line 136 *)
  step_done : bool;               (* line 136: the simulation had advanced
                                     when the call raised *)
  step_end : Z;                   (* line 137 *)
  get_data_fault : option exn;    (* line 139 *)
  data : pyobj;                   (* line 139 *)
  cvt_elsewhere : result ndarray; (* line 142, see [cvtColor] *)
  write_sent : nat;               (* line 149: bytes handed to the pipe *)
  write_fault : option exn;       (* line 149 *)
  flush_sent : nat;               (* line 150: bytes handed to the pipe when
                                     the call raises *)
  flush_fault : option exn;       (* line 150 *)
  metrics_fault : option exn;     (* line 153: an exception that surfaces
                                     there, that is an interrupt *)
  frame_end : Z;                  (* line 153 *)
  tail_fault : option exn;        (* lines 155-160: an exception that
                                     surfaces there, that is an interrupt *)
  report_time : Z                 (* line 158 *)
}.

(** [self.rep.orchestrator.step()] *)
Definition orchestrator_step (t : tick) : M unit :=
  match step_fault t with
  | None =>
      modify (fun s => set_orchestrator_steps (S (orchestrator_steps s)) s)
  | Some e =>
      (if step_done t then
         modify (fun s => set_orchestrator_steps (S (orchestrator_steps s)) s)
       else ret tt) ;;
      raise e
  end.

(** [self.annotator.get_data()] *)
Definition get_data (t : tick) : M pyobj :=
  self <- get ;;
  match annotator self with
  | None => raise (AttributeError "annotator")
  | Some _ => external (get_data_fault t) ;; ret (data t)
  end.

(** [self.proc.stdin.write(b)].  The bytes waiting are those of the buffer
    followed by [b]; [write_sent] of them go to the pipe during the call.
    When the call returns the rest is in the buffer; when it raises, what
    is left of the old buffer stays and what is left of [b] is lost. *)
Definition stdin_write (t : tick) (b : list Byte.byte) : M unit :=
  self <- get ;;
  match proc self with
  | None => raise (AttributeError "proc")
  | Some p =>
      if stdin_closed p then raise (ValueError "write to closed file")
      else
        let waiting := stdin_buffer p ++ b in
        match write_fault t with
        | Some e =>
            modify (set_proc (Some (mkPopen (args p) (stdin_closed p)
                      (stdin_received p) (stdin_flushes p)
                      (skipn (write_sent t) (stdin_buffer p))
                      (stdin_pipe p ++ firstn (write_sent t) waiting)
                      (fd_closes p) (waited p) (reaps p)))) ;;
            raise e
        | None =>
            modify (set_proc (Some (mkPopen (args p) (stdin_closed p)
                      (stdin_received p ++ [b]) (stdin_flushes p)
                      (skipn (write_sent t) waiting)
                      (stdin_pipe p ++ firstn (write_sent t) waiting)
                      (fd_closes p) (waited p) (reaps p))))
        end
  end.

(** [self.proc.stdin.flush()]: hands the buffer to the pipe, or raises
    with [flush_sent] bytes of it handed over. *)
Definition stdin_flush (t : tick) : M unit :=
  self <- get ;;
  match proc self with
  | None => raise (AttributeError "proc")
  | Some p =>
      if stdin_closed p then raise (ValueError "flush of closed file")
      else
        match flush_fault t with
        | Some e =>
            modify (set_proc (Some (mkPopen (args p) (stdin_closed p)
                      (stdin_received p) (stdin_flushes p)
                      (skipn (flush_sent t) (stdin_buffer p))
                      (stdin_pipe p ++ firstn (flush_sent t) (stdin_buffer p))
                      (fd_closes p) (waited p) (reaps p)))) ;;
            raise e
        | None =>
            modify (set_proc (Some (mkPopen (args p) (stdin_closed p)
                      (stdin_received p) (S (stdin_flushes p)) []
                      (stdin_pipe p ++ stdin_buffer p)
                      (fd_closes p) (waited p) (reaps p))))
        end
  end.

Definition lift {A : Type} (r : result A) : M A :=
  match r with
  | Ok a => ret a
  | Raise e => raise e
  end.

(** The loop body, lines 132-160; returns the new [frame_count]. *)
Definition iteration (start_time : Z) (t : tick) (frame_count : Z) : M Z :=
  let frame_start := frame_start t in
  let step_start := step_start t in
  orchestrator_step t ;;
  let step_time := step_end t - step_start in
  print (Simulation_step_took step_time) ;;
  frame <- get_data t ;;
  frame <- lift (cvtColor (cvt_elsewhere t) frame) ;;
  stdin_write t (tobytes frame) ;;
  stdin_flush t ;;
  external (metrics_fault t) ;;
  let frame_time := frame_end t - frame_start in
  print (Total_frame_processing_took frame_time) ;;
  external (tail_fault t) ;;
  let frame_count := frame_count + 1 in
  if frame_count mod 100 =? 0 then
    let elapsed_time := report_time t - start_time in
    if elapsed_time =? 0 then raise ZeroDivisionError
    else
      print (Processed_frames frame_count elapsed_time) ;;
      ret frame_count
  else ret frame_count.

(** [while True:] over the passes the environment scripts.  The loop has no
    exit of its own: [None] says that it is still running when the script
    ends, [Some e] that the body raised [e]. *)
Fixpoint loop (start_time : Z) (ticks : list tick) (frame_count : Z)
    (s : SimulationStream) : option exn * SimulationStream :=
  match ticks with
  | [] => (None, s)
  | t :: ticks' =>
      match iteration start_time t frame_count s with
      | (Ok frame_count', s') => loop start_time ticks' frame_count' s'
      | (Raise e, s') => (Some e, s')
      end
  end.

(** ** Cleanup *)

(** What the environment does when [cleanup] closes the pipe with bytes
    still in the buffer: whether the flush that [close()] starts with fails,
    and how many bytes it hands over when it does. *)
Record closing : Type := mkClosing {
  close_sent : nat;
  close_fault : option exn
}.

(** [self.proc.stdin.close()]: the outcome and the process object after it.
    Nothing happens on a closed file.  On an open one the buffer is flushed
    and the descriptor closed; when the flush fails the descriptor is closed
    all the same, the buffer is given up and the exception is raised. *)
Definition stdin_close (c : closing) (p : Popen) : result unit * Popen :=
  if stdin_closed p then (Ok tt, p)
  else
    match stdin_buffer p, close_fault c with
    | _ :: _, Some e =>
        (Raise e,
         mkPopen (args p) true (stdin_received p) (stdin_flushes p) []
           (stdin_pipe p ++ firstn (close_sent c) (stdin_buffer p))
           (S (fd_closes p)) (waited p) (reaps p))
    | _, _ =>
        (Ok tt,
         mkPopen (args p) true (stdin_received p) (stdin_flushes p) []
           (stdin_pipe p ++ stdin_buffer p)
           (S (fd_closes p)) (waited p) (reaps p))
    end.

(** [self.proc.wait()] *)
Definition wait (p : Popen) : Popen :=
  if waited p then p
  else mkPopen (args p) (stdin_closed p) (stdin_received p) (stdin_flushes p)
         (stdin_buffer p) (stdin_pipe p) (fd_closes p) true (S (reaps p)).

(** [self.simulator.close()] *)
Definition simulator_close (x : Simulator) : Simulator :=
  mkSimulator (active_stage x) (S (close_calls x)).

(** Lines 167-175. *)
Definition cleanup (c : closing) : M unit :=
  print Stopping_FFmpeg_process ;;
  self <- get ;;
  match proc self with
  | Some p =>
      modify (set_proc (Some (snd (stdin_close c p)))) ;;
      lift (fst (stdin_close c p)) ;;
      modify (fun s => set_proc (option_map wait (proc s)) s)
  | None => ret tt
  end ;;
  print Closing_simulation ;;
  modify (fun s => set_simulator (simulator_close (simulator s)) s) ;;
  print Successfully_cleaned_up.

(** ** [stream] *)

(** How a call of [stream] looks to its caller. *)
Inductive stream_outcome : Type :=
| Streaming              (* still in the loop when the script ends *)
| Returned               (* [stream] returned *)
| Propagated (e : exn).  (* [stream] raised [e] *)

(** [try: ... finally: self.cleanup()]: run [cleanup]; what was pending
    ([pending]) propagates unless [cleanup] raised itself. *)
Definition finally_cleanup (c : closing) (pending : stream_outcome)
    (s : SimulationStream) : stream_outcome * SimulationStream :=
  match cleanup c s with
  | (Ok _, s') => (pending, s')
  | (Raise e, s') => (Propagated e, s')
  end.

(** Lines 124-165.  [start_time] is the clock reading of line 129 and [c]
    what the environment does when [cleanup] closes the pipe. *)
Definition stream (start_time : Z) (ticks : list tick) (c : closing)
    (s : SimulationStream) : stream_outcome * SimulationStream :=
  match print Starting_camera_stream_loop s with
  | (Raise e, s0) => finally_cleanup c (Propagated e) s0
  | (Ok _, s0) =>
      let frame_count := 0 in
      match loop start_time ticks frame_count s0 with
      | (None, s1) => (Streaming, s1)
      | (Some KeyboardInterrupt, s1) =>
          match print Received_keyboard_interrupt s1 with
          | (Ok _, s2) => finally_cleanup c Returned s2
          | (Raise e, s2) => finally_cleanup c (Propagated e) s2
          end
      | (Some e, s1) => finally_cleanup c (Propagated e) s1
      end
  end.

(** * Vocabulary of the properties *)

(** ** States the loop goes through *)

(** The throughput line a pass prints, if any. *)
Definition report (start_time : Z) (t : tick) (frame_count : Z) : list line :=
  if (frame_count + 1) mod 100 =? 0 then
    [Processed_frames (frame_count + 1) (report_time t - start_time)]
  else [].

(** The process object after one more frame [b] was written and flushed:
    the buffer is empty and the pipe has got what was buffered and [b]. *)
Definition fed (p : Popen) (b : list Byte.byte) : Popen :=
  mkPopen (args p) (stdin_closed p) (stdin_received p ++ [b])
    (S (stdin_flushes p)) [] (stdin_pipe p ++ stdin_buffer p ++ b)
    (fd_closes p) (waited p) (reaps p).

(** The instance after a pass that ran to its end and wrote [b]. *)
Definition passed (start_time : Z) (t : tick) (frame_count : Z)
    (b : list Byte.byte) (p : Popen) (s : SimulationStream)
  : SimulationStream :=
  mkSimulationStream (simulator s) (width s) (height s) (fps s) (camera_path s)
    (annotator_type s) (transport s) (rtsp_url s) (stage s) (render_product s)
    (Some (fed p b)) (annotator s) (S (orchestrator_steps s))
    (stdout s ++ Simulation_step_took (step_end t - step_start t)
              :: Total_frame_processing_took (frame_end t - frame_start t)
              :: report start_time t frame_count).

(** What no pass touches, however it ends: the configuration, the simulator,
    the attributes made by setup, and the life cycle of the child. *)
Definition same_child (p p' : Popen) : Prop :=
  args p' = args p /\ stdin_closed p' = stdin_closed p /\
  fd_closes p' = fd_closes p /\ waited p' = waited p /\ reaps p' = reaps p.

Definition same_setup (s s' : SimulationStream) : Prop :=
  config s' = config s /\ simulator s' = simulator s /\
  annotator s' = annotator s /\ stage s' = stage s /\
  render_product s' = render_product s /\
  match proc s with
  | None => proc s' = None
  | Some p => exists p', proc s' = Some p' /\ same_child p p'
  end.

(** A computation that, however it ends, leaves alone what [same_setup]
    protects. *)
Definition keeps_setup {A : Type} (m : M A) : Prop :=
  forall s, same_setup s (snd (m s)).

(** The instance can stream: the annotator is attached and the encoder's
    input channel is open. *)
Definition ready (s : SimulationStream) : Prop :=
  annotator s <> None /\ exists p, proc s = Some p /\ stdin_closed p = false.

(** Nothing goes wrong in pass [t]: no call raises, the annotator yields a
    four-channel image that has pixels, and the clock has moved since the
    loop started. *)
Definition benign (start_time : Z) (t : tick) : Prop :=
  step_fault t = None /\ get_data_fault t = None /\
  write_fault t = None /\ flush_fault t = None /\ metrics_fault t = None /\
  tail_fault t = None /\
  (exists a, data t = NDArray a /\ channels a = 4%nat /\
             (0 < rows a * cols a)%nat) /\
  report_time t - start_time <> 0.

(** The interrupt surfaces in pass [t], started on instance [s]: in the
    simulation step, in the fetch of the frame, in the conversion, in the
    write, in the flush, or in the lines after it. *)
Definition interrupt_delivered (t : tick) (s : SimulationStream) : Prop :=
  step_fault t = Some KeyboardInterrupt \/
  (step_fault t = None /\ annotator s <> None /\
   (get_data_fault t = Some KeyboardInterrupt \/
    (get_data_fault t = None /\
     (cvtColor (cvt_elsewhere t) (data t) = Raise KeyboardInterrupt \/
      ((exists frame, cvtColor (cvt_elsewhere t) (data t) = Ok frame) /\
       exists p, proc s = Some p /\ stdin_closed p = false /\
         (write_fault t = Some KeyboardInterrupt \/
          (write_fault t = None /\
           (flush_fault t = Some KeyboardInterrupt \/
            (flush_fault t = None /\
             (metrics_fault t = Some KeyboardInterrupt \/
              (metrics_fault t = None /\
               tail_fault t = Some KeyboardInterrupt))))))))))).

(** ** What the encoder and the terminal have seen *)

(** The byte strings the encoder has been given on its input channel: the
    frames of the [write()] calls that returned. *)
Definition written (s : SimulationStream) : list (list Byte.byte) :=
  match proc s with
  | Some p => stdin_received p
  | None => []
  end.

(** The flushes of the input channel that went through. *)
Definition flushed (s : SimulationStream) : nat :=
  match proc s with
  | Some p => stdin_flushes p
  | None => 0%nat
  end.

(** The bytes in the pipe, and those still in the buffer of the writer. *)
Definition piped (s : SimulationStream) : list Byte.byte :=
  match proc s with
  | Some p => stdin_pipe p
  | None => []
  end.

Definition buffered (s : SimulationStream) : list Byte.byte :=
  match proc s with
  | Some p => stdin_buffer p
  | None => []
  end.

(** The bytes the writer has accepted and still holds or has handed on:
    those in the pipe followed by those in the buffer. *)
Definition accepted (s : SimulationStream) : list Byte.byte :=
  piped s ++ buffered s.

(** The bytes lines 142 and 149 make of the frame of a pass. *)
Definition encoded (t : tick) : list Byte.byte :=
  match cvtColor (cvt_elsewhere t) (data t) with
  | Ok frame => tobytes frame
  | Raise _ => []
  end.

(** The annotator yields a [w] x [h] RGBA frame in pass [t]. *)
Definition yields_rgba (w h : Z) (t : tick) : Prop :=
  exists a, data t = NDArray a /\ Z.of_nat (cols a) = w /\
            Z.of_nat (rows a) = h /\ channels a = 4%nat /\ well_shaped a.

Definition is_report (l : line) : bool :=
  match l with
  | Processed_frames _ _ => true
  | _ => false
  end.

(** The throughput lines printed so far. *)
Definition reports (s : SimulationStream) : list line :=
  filter is_report (stdout s).

(** The timing lines printed so far: those of line 138 and those of
    line 154. *)
Definition is_step_line (l : line) : bool :=
  match l with
  | Simulation_step_took _ => true
  | _ => false
  end.

Definition is_frame_line (l : line) : bool :=
  match l with
  | Total_frame_processing_took _ => true
  | _ => false
  end.

Definition step_lines (s : SimulationStream) : nat :=
  List.length (filter is_step_line (stdout s)).

Definition frame_lines (s : SimulationStream) : nat :=
  List.length (filter is_frame_line (stdout s)).

(** Between [s] and [s'] every timing line stands for a call that
    returned, and at most one step and one flush went without their
    line. *)
Definition logged (s s' : SimulationStream) : Prop :=
  (step_lines s' + orchestrator_steps s
   <= orchestrator_steps s' + step_lines s)%nat /\
  (orchestrator_steps s' + step_lines s
   <= step_lines s' + orchestrator_steps s + 1)%nat /\
  (frame_lines s' + flushed s <= flushed s' + frame_lines s)%nat /\
  (flushed s' + frame_lines s <= frame_lines s' + flushed s + 1)%nat /\
  (step_lines s <= step_lines s')%nat /\
  (frame_lines s <= frame_lines s')%nat.

(** Between [s] and [s'] every step and every flush has its line. *)
Definition logged_all (s s' : SimulationStream) : Prop :=
  (step_lines s' + orchestrator_steps s
   = orchestrator_steps s' + step_lines s)%nat /\
  (frame_lines s' + flushed s = flushed s' + frame_lines s)%nat /\
  (step_lines s <= step_lines s')%nat /\
  (frame_lines s <= frame_lines s')%nat.

(** The passes of a run, each with the value [frame_count] has after it. *)
Fixpoint numbered (frame_count : Z) (ticks : list tick) : list (Z * tick) :=
  match ticks with
  | [] => []
  | t :: ticks' => (frame_count + 1, t) :: numbered (frame_count + 1) ticks'
  end.

(** The throughput lines that are due in a run: one for each pass whose
    frame count is a multiple of 100, with that count and the time elapsed
    since the loop started. *)
Definition due (start_time frame_count : Z) (ticks : list tick) : list line :=
  map (fun kt => Processed_frames (fst kt) (report_time (snd kt) - start_time))
    (filter (fun kt => fst kt mod 100 =? 0) (numbered frame_count ticks)).

(** [l1] is the beginning of [l2]. *)
Definition prefix {A : Type} (l1 l2 : list A) : Prop :=
  exists rest, l2 = l1 ++ rest.

(** ** Exits and released resources *)

(** The instance once line 127 has printed. *)
Definition started (s : SimulationStream) : SimulationStream :=
  set_stdout (stdout s ++ [Starting_camera_stream_loop]) s.

(** The instance once line 163 has printed. *)
Definition interrupted (s : SimulationStream) : SimulationStream :=
  set_stdout (stdout s ++ [Received_keyboard_interrupt]) s.


(** How the [close()] of line 171 ends on instance [s]. *)
Definition close_outcome (c : closing) (s : SimulationStream) : result unit :=
  match proc s with
  | Some p => fst (stdin_close c p)
  | None => Ok tt
  end.

(** The instance a [cleanup] that runs to its last line leaves behind. *)
Definition cleaned (c : closing) (s : SimulationStream) : SimulationStream :=
  mkSimulationStream (simulator_close (simulator s)) (width s) (height s)
    (fps s) (camera_path s) (annotator_type s) (transport s) (rtsp_url s)
    (stage s) (render_product s)
    (option_map (fun p => wait (snd (stdin_close c p))) (proc s)) (annotator s)
    (orchestrator_steps s)
    (stdout s ++ [Stopping_FFmpeg_process; Closing_simulation;
                  Successfully_cleaned_up]).

(** The instance a [cleanup] leaves behind that raised in line 171. *)
Definition aborted (c : closing) (s : SimulationStream) : SimulationStream :=
  mkSimulationStream (simulator s) (width s) (height s)
    (fps s) (camera_path s) (annotator_type s) (transport s) (rtsp_url s)
    (stage s) (render_product s)
    (option_map (fun p => snd (stdin_close c p)) (proc s)) (annotator s)
    (orchestrator_steps s)
    (stdout s ++ [Stopping_FFmpeg_process]).

(** Every resource the instance holds has been given back: the input channel
    of the encoder, if one was launched, is closed and the child has been
    waited for, and the simulator has been closed. *)
Definition released (s : SimulationStream) : Prop :=
  (forall p, proc s = Some p -> stdin_closed p = true /\ waited p = true) /\
  (0 < close_calls (simulator s))%nat.

(** How often the descriptor of the encoder's input channel was really
    closed, and how often the child was really waited for. *)
Definition pipe_closes (s : SimulationStream) : nat :=
  match proc s with
  | Some p => fd_closes p
  | None => 0%nat
  end.

Definition child_reaps (s : SimulationStream) : nat :=
  match proc s with
  | Some p => reaps p
  | None => 0%nat
  end.

(** One more when [b] is [false]. *)
Definition once_more (b : bool) (n : nat) : nat :=
  if b then n else S n.

(** What [cleanup] has done to the encoder of an instance whose encoder was
    [p] before: the input channel is closed, and was closed now unless it
    was closed before; the child has been waited for, now unless it was
    before; nothing is left in the buffer of a channel that was open; and
    the command line is what it was. *)
Definition wound_up (p p' : Popen) : Prop :=
  args p' = args p /\
  stdin_closed p' = true /\
  fd_closes p' = once_more (stdin_closed p) (fd_closes p) /\
  waited p' = true /\ reaps p' = once_more (waited p) (reaps p) /\
  (stdin_closed p = false -> stdin_buffer p' = []).

(** [cleanup] has run on the instance, from its first line to its last,
    between [s] and [s']: the encoder, if there is one, is wound up, the
    simulator has got one [close()], and the three lines of [cleanup] are the
    last that were printed. *)
Definition cleaned_up (s s' : SimulationStream) : Prop :=
  match proc s with
  | None => proc s' = None
  | Some p => exists p', proc s' = Some p' /\ wound_up p p'
  end /\
  active_stage (simulator s') = active_stage (simulator s) /\
  close_calls (simulator s') = S (close_calls (simulator s)) /\
  exists printed,
    stdout s' = printed ++ [Stopping_FFmpeg_process; Closing_simulation;
                            Successfully_cleaned_up].

(** [cleanup] was cut short in line 171 between [s] and [s']: the input
    channel of the encoder, open before, is closed, but the child has not
    been waited for and the simulator has not been closed; the last line
    printed is the first of [cleanup]. *)
Definition cut_short (s s' : SimulationStream) : Prop :=
  (exists p p', proc s = Some p /\ proc s' = Some p' /\
     args p' = args p /\
     stdin_closed p = false /\ stdin_closed p' = true /\
     fd_closes p' = S (fd_closes p) /\
     waited p' = waited p /\ reaps p' = reaps p) /\
  simulator s' = simulator s /\
  exists printed, stdout s' = printed ++ [Stopping_FFmpeg_process].


(** ** Construction *)

(** The scene [_setup_camera] finds: the one just opened when a scene file
    was given, the simulator's own otherwise. *)
Definition scene_seen (env : setup_env) (sim : Simulator)
    (usd_path : option string) : option Stage :=
  if truthy usd_path then stage_after_open env else active_stage sim.

(** The simulator once the scene file, if any, has been opened. *)
Definition simulator_seen (env : setup_env) (sim : Simulator)
    (usd_path : option string) : Simulator :=
  if truthy usd_path then mkSimulator (stage_after_open env) (close_calls sim)
  else sim.

(** The instance a construction that ran through leaves. *)
Definition constructed (env : setup_env) (sim : Simulator) (w h f : Z)
    (cam : string) (ann : AnnotatorType) (tr : TransportType) (url : string)
    (usd_path : option string) : SimulationStream :=
  let rp := mkRenderProduct cam (w, h) in
  mkSimulationStream (simulator_seen env sim usd_path) w h f cam ann tr url
    (scene_seen env sim usd_path) (Some rp)
    (Some (subprocess_Popen
       [ "ffmpeg"; "-y"; "-f"; "rawvideo"; "-vcodec"; "rawvideo";
         "-pix_fmt"; "bgr24"; "-s"; (str w ++ "x" ++ str h)%string;
         "-r"; str f; "-i"; "-"; "-an"; "-c:v"; "h264_nvenc";
         "-preset"; "fast"; "-f"; "rtsp";
         "-rtsp_transport"; TransportType_str tr; url ]))
    (Some (mkAnnotator ann (Some rp))) 0 [].

(** Whether character [c] occurs in [s]. *)
Fixpoint occurs (c : Ascii.ascii) (s : string) : bool :=
  match s with
  | EmptyString => false
  | String c' s' => Ascii.eqb c c' || occurs c s'
  end.

(** ** Pixels *)





(** ** A worked run *)

(** A two-by-one stream on a scene that holds the camera. *)
Definition demo_env : setup_env :=
  mkSetupEnv (fun p => p) None None None None None.

Definition demo_simulator : Simulator :=
  mkSimulator (Some ["/World/cam"]) 0.

Definition demo : SimulationStream :=
  snd (__init__ demo_env demo_simulator 2 1 30 "/World/cam" rgb tcp
         "rtsp://mediamtx:8554/stream" None).

(** A frame of one row and two pixels, and a pass that yields it: the frame
    is small, [write] keeps it in the buffer and [flush] hands it over. *)
Definition demo_frame : ndarray :=
  mkNdarray 1 2 4
    [Byte.x01; Byte.x02; Byte.x03; Byte.xff; Byte.x04; Byte.x05; Byte.x06; Byte.xfe].

Definition demo_tick : tick :=
  mkTick 0 1 None false 2 None (NDArray demo_frame) (Raise cv2_error)
    0 None 0 None None 3 None 4.

(** The encoder is alive when the pipe is closed; the encoder is gone. *)
Definition encoder_alive : closing := mkClosing 0 None.

Definition encoder_gone : closing := mkClosing 0 (Some BrokenPipeError).

(** The encoder is gone when the frame is flushed. *)
Definition broken_pipe_tick : tick :=
  mkTick 0 1 None false 2 None (NDArray demo_frame) (Raise cv2_error)
    0 None 0 (Some BrokenPipeError) None 3 None 4.

(** The encoder is gone when a frame too large for the buffer is written:
    two of its bytes reach the pipe. *)
Definition broken_write_tick : tick :=
  mkTick 0 1 None false 2 None (NDArray demo_frame) (Raise cv2_error)
    2 (Some BrokenPipeError) 0 None None 3 None 4.

(** The interrupt arrives during the simulation step. *)
Definition interrupt_tick : tick :=
  mkTick 0 1 (Some KeyboardInterrupt) false 2 None (NDArray demo_frame)
    (Raise cv2_error) 0 None 0 None None 3 None 4.

(** The interrupt arrives when the frame is in the buffer and not yet
    flushed. *)
Definition interrupt_before_flush_tick : tick :=
  mkTick 0 1 None false 2 None (NDArray demo_frame) (Raise cv2_error)
    0 None 0 (Some KeyboardInterrupt) None 3 None 4.

(** The clock still reads the start time at line 158. *)
Definition stalled_tick : tick :=
  mkTick 0 1 None false 2 None (NDArray demo_frame) (Raise cv2_error)
    0 None 0 None None 3 None 0.

(** A construction in which the encoder cannot be started. *)
Definition no_ffmpeg_env : setup_env :=
  mkSetupEnv (fun p => p) None None (Some (ForeignError "FileNotFoundError"))
    None None.

(** A construction in which the scene file cannot be opened. *)
Definition no_scene_env : setup_env :=
  mkSetupEnv (fun p => ("/abs/" ++ p)%string) None None None None None.

(** * Properties *)

#[local] Arguments Z.modulo : simpl never.
#[local] Arguments Z.eqb : simpl never.
#[local] Arguments Z.add : simpl never.
#[local] Arguments Z.sub : simpl never.
#[local] Arguments Z.mul : simpl never.
#[local] Arguments Z.div : simpl never.
#[local] Arguments String.append : simpl never.
#[local] Arguments str : simpl never.
#[local] Arguments firstn : simpl never.
#[local] Arguments skipn : simpl never.

(** ** One pass through the loop body *)

Ltac unfold_M :=
  unfold orchestrator_step, get_data, stdin_write, stdin_flush, print, lift,
    external, modify, get, bind, ret, raise in *.

(** Two instances with the same attributes are the same instance. *)
Lemma SimulationStream_ext (s s' : SimulationStream) :
  simulator s = simulator s' -> width s = width s' -> height s = height s' ->
  fps s = fps s' -> camera_path s = camera_path s' ->
  annotator_type s = annotator_type s' -> transport s = transport s' ->
  rtsp_url s = rtsp_url s' -> stage s = stage s' ->
  render_product s = render_product s' -> proc s = proc s' ->
  annotator s = annotator s' -> orchestrator_steps s = orchestrator_steps s' ->
  stdout s = stdout s' ->
  s = s'.
Proof.
  destruct s, s'; simpl; intros; subst; reflexivity.
Qed.

Ltac same_instance :=
  apply SimulationStream_ext; simpl; try reflexivity; try congruence.

(** A write followed by a flush, both returning, gets everything into the
    pipe, however the write split the bytes. *)
Lemma write_then_flush (n : nat) (pipe waiting : list Byte.byte) :
  (pipe ++ firstn n waiting) ++ skipn n waiting = pipe ++ waiting.
Proof. rewrite <- app_assoc, firstn_skipn. reflexivity. Qed.

Lemma iteration_Ok_inv (start_time : Z) (t : tick) (frame_count frame_count' : Z)
    (s s' : SimulationStream) :
  iteration start_time t frame_count s = (Ok frame_count', s') ->
  exists frame p,
    step_fault t = None /\ get_data_fault t = None /\
    write_fault t = None /\ flush_fault t = None /\
    metrics_fault t = None /\ tail_fault t = None /\
    annotator s <> None /\
    cvtColor (cvt_elsewhere t) (data t) = Ok frame /\
    proc s = Some p /\ stdin_closed p = false /\
    ((frame_count + 1) mod 100 = 0 -> report_time t - start_time <> 0) /\
    frame_count' = frame_count + 1 /\
    s' = passed start_time t frame_count (tobytes frame) p s.
Proof.
  unfold iteration. unfold_M. intros H.
  destruct (step_fault t); [destruct (step_done t); discriminate |].
  simpl in H.
  destruct (annotator s) as [an |] eqn:Ea; [| discriminate].
  destruct (get_data_fault t); [discriminate |]. simpl in H.
  destruct (cvtColor (cvt_elsewhere t) (data t)) as [frame | e] eqn:Ecv;
    [| discriminate].
  simpl in H.
  destruct (proc s) as [p |] eqn:Ep; [| discriminate].
  destruct (stdin_closed p) eqn:Ecl; [discriminate |].
  destruct (write_fault t); [discriminate |]. simpl in H.
  destruct (flush_fault t); [discriminate |]. simpl in H.
  destruct (metrics_fault t); [discriminate |]. simpl in H.
  destruct (tail_fault t); [discriminate |]. simpl in H.
  exists frame, p.
  destruct ((frame_count + 1) mod 100 =? 0) eqn:Em.
  - destruct (report_time t - start_time =? 0) eqn:Ez; [discriminate |].
    simpl in H. injection H as <- <-.
    apply Z.eqb_neq in Ez.
    repeat split; auto; try congruence.
    same_instance; unfold fed, report;
      rewrite ?Ecl, ?Em, ?write_then_flush, <- ?app_assoc; reflexivity.
  - simpl in H. injection H as <- <-.
    repeat split; auto; try congruence.
    + apply Z.eqb_neq in Em. congruence.
    + same_instance; unfold fed, report;
        rewrite ?Ecl, ?Em, ?write_then_flush, <- ?app_assoc; reflexivity.
Qed.

Lemma iteration_Ok (start_time : Z) (t : tick) (frame_count : Z)
    (s : SimulationStream) (frame : ndarray) (p : Popen) :
  step_fault t = None -> get_data_fault t = None ->
  write_fault t = None -> flush_fault t = None ->
  metrics_fault t = None -> tail_fault t = None ->
  annotator s <> None ->
  cvtColor (cvt_elsewhere t) (data t) = Ok frame ->
  proc s = Some p -> stdin_closed p = false ->
  ((frame_count + 1) mod 100 = 0 -> report_time t - start_time <> 0) ->
  iteration start_time t frame_count s
  = (Ok (frame_count + 1),
     passed start_time t frame_count (tobytes frame) p s).
Proof.
  intros Hst Hg Hw Hf Hm Ht Ha Hcv Hp Hcl Hz.
  unfold iteration. unfold_M.
  rewrite Hst. simpl.
  destruct (annotator s) as [an |] eqn:Ea; [| congruence].
  rewrite Hg. simpl. rewrite Hcv. simpl.
  rewrite Hp, Hcl, Hw. simpl. rewrite ?Hcl, Hf. simpl. rewrite Hm. simpl.
  rewrite Ht. simpl.
  destruct ((frame_count + 1) mod 100 =? 0) eqn:Em.
  - pose proof Em as Em'. apply Z.eqb_eq in Em'. apply Hz in Em'.
    apply Z.eqb_neq in Em'. rewrite Em'. simpl. f_equal.
    same_instance; unfold fed, report;
      rewrite ?Hcl, ?Em, ?write_then_flush, <- ?app_assoc; reflexivity.
  - simpl. f_equal.
    same_instance; unfold fed, report;
      rewrite ?Hcl, ?Em, ?write_then_flush, <- ?app_assoc; reflexivity.
Qed.

Lemma same_child_refl (p : Popen) : same_child p p.
Proof. repeat split. Qed.

Lemma same_setup_refl (s : SimulationStream) : same_setup s s.
Proof.
  repeat split. destruct (proc s) as [p |]; [| reflexivity].
  exists p. split; [reflexivity | apply same_child_refl].
Qed.

Lemma same_setup_trans (s1 s2 s3 : SimulationStream) :
  same_setup s1 s2 -> same_setup s2 s3 -> same_setup s1 s3.
Proof.
  intros (C1 & S1 & A1 & G1 & R1 & P1) (C2 & S2 & A2 & G2 & R2 & P2).
  repeat split; try congruence.
  destruct (proc s1) as [p1 |].
  - destruct P1 as (p2 & E2 & K1). rewrite E2 in P2.
    destruct P2 as (p3 & E3 & K2). exists p3. split; [assumption |].
    destruct K1 as (? & ? & ? & ? & ?), K2 as (? & ? & ? & ? & ?).
    repeat split; congruence.
  - rewrite P1 in P2. assumption.
Qed.

Lemma keeps_ret {A : Type} (a : A) : keeps_setup (ret a).
Proof. intros s. apply same_setup_refl. Qed.

Lemma keeps_raise {A : Type} (e : exn) : keeps_setup (@raise A e).
Proof. intros s. apply same_setup_refl. Qed.

Lemma keeps_get : keeps_setup get.
Proof. intros s. apply same_setup_refl. Qed.

Lemma keeps_bind {A B : Type} (m : M A) (k : A -> M B) :
  keeps_setup m -> (forall a, keeps_setup (k a)) -> keeps_setup (bind m k).
Proof.
  intros Hm Hk s. unfold bind. specialize (Hm s).
  destruct (m s) as [[a | e] s1]; simpl in *.
  - eapply same_setup_trans; [exact Hm | apply Hk].
  - exact Hm.
Qed.

Lemma keeps_external (fault : option exn) : keeps_setup (external fault).
Proof. destruct fault; [apply keeps_raise | apply keeps_ret]. Qed.

Lemma keeps_lift {A : Type} (r : result A) : keeps_setup (lift r).
Proof. destruct r; [apply keeps_ret | apply keeps_raise]. Qed.

Lemma keeps_print (l : line) : keeps_setup (print l).
Proof.
  intros s. unfold same_setup, config, print, modify; simpl.
  repeat split. destruct (proc s) as [p |]; [| reflexivity].
  exists p. split; [reflexivity | apply same_child_refl].
Qed.

Lemma keeps_stepped :
  keeps_setup
    (modify (fun s => set_orchestrator_steps (S (orchestrator_steps s)) s)).
Proof.
  intros s. unfold same_setup, config, modify; simpl.
  repeat split. destruct (proc s) as [p |]; [| reflexivity].
  exists p. split; [reflexivity | apply same_child_refl].
Qed.

Lemma keeps_orchestrator_step (t : tick) : keeps_setup (orchestrator_step t).
Proof.
  unfold orchestrator_step. destruct (step_fault t); [| apply keeps_stepped].
  apply keeps_bind; [| intros; apply keeps_raise].
  destruct (step_done t); [apply keeps_stepped | apply keeps_ret].
Qed.

Lemma keeps_get_data (t : tick) : keeps_setup (get_data t).
Proof.
  unfold get_data. apply keeps_bind; [apply keeps_get |].
  intros self. destruct (annotator self); [| apply keeps_raise].
  apply keeps_bind; [apply keeps_external | intros; apply keeps_ret].
Qed.

(** Putting another process object with the same life cycle in place of
    the encoder keeps the setup. *)
Lemma keeps_set_proc (s : SimulationStream) (p p' : Popen) :
  proc s = Some p -> same_child p p' -> same_setup s (set_proc (Some p') s).
Proof.
  intros Ep K. unfold same_setup, config; simpl.
  repeat split. rewrite Ep. exists p'. split; [reflexivity | exact K].
Qed.

Lemma keeps_stdin_write (t : tick) (b : list Byte.byte) :
  keeps_setup (stdin_write t b).
Proof.
  intros s. unfold stdin_write. unfold_M.
  destruct (proc s) as [p |] eqn:Ep; [| simpl; apply same_setup_refl].
  destruct (stdin_closed p) eqn:Ecl; [simpl; apply same_setup_refl |].
  destruct (write_fault t); simpl;
    apply (keeps_set_proc s p); try assumption; repeat split; simpl; congruence.
Qed.

Lemma keeps_stdin_flush (t : tick) : keeps_setup (stdin_flush t).
Proof.
  intros s. unfold stdin_flush. unfold_M.
  destruct (proc s) as [p |] eqn:Ep; [| simpl; apply same_setup_refl].
  destruct (stdin_closed p) eqn:Ecl; [simpl; apply same_setup_refl |].
  destruct (flush_fault t); simpl;
    apply (keeps_set_proc s p); try assumption; repeat split; simpl; congruence.
Qed.

Create HintDb keeps.

#[local] Hint Resolve keeps_ret keeps_raise keeps_get keeps_external keeps_lift
  keeps_print keeps_orchestrator_step keeps_get_data keeps_stdin_write
  keeps_stdin_flush : keeps.

Lemma keeps_iteration (start_time : Z) (t : tick) (frame_count : Z) :
  keeps_setup (iteration start_time t frame_count).
Proof.
  unfold iteration.
  repeat (apply keeps_bind; [auto with keeps | intros]).
  destruct (_ =? 0); [| auto with keeps].
  destruct (_ =? 0); [auto with keeps |].
  apply keeps_bind; auto with keeps.
Qed.

Lemma loop_same_setup (start_time : Z) (ticks : list tick) :
  forall (frame_count : Z) (s : SimulationStream),
    same_setup s (snd (loop start_time ticks frame_count s)).
Proof.
  induction ticks as [| t ticks IH]; intros frame_count s; simpl.
  - apply same_setup_refl.
  - pose proof (keeps_iteration start_time t frame_count s) as K.
    destruct (iteration start_time t frame_count s) as [[fc' | e] s1];
      simpl in *.
    + eapply same_setup_trans; [exact K | apply IH].
    + exact K.
Qed.

(** ** The loop over several passes *)

(** A run that is still going has counted every pass. *)
Lemma loop_app (start_time : Z) (pre post : list tick) :
  forall (frame_count : Z) (s : SimulationStream),
    fst (loop start_time pre frame_count s) = None ->
    loop start_time (pre ++ post) frame_count s
    = loop start_time post (frame_count + Z.of_nat (List.length pre))
        (snd (loop start_time pre frame_count s)).
Proof.
  induction pre as [| t pre IH]; intros frame_count s H.
  - simpl. rewrite Z.add_0_r. reflexivity.
  - cbn [loop app] in *.
    destruct (iteration start_time t frame_count s) as [[fc' | e] s1] eqn:E;
      [| discriminate].
    apply iteration_Ok_inv in E. destruct E as (a & p & E).
    assert (fc' = frame_count + 1) by apply E. subst fc'.
    rewrite IH by assumption. f_equal. cbn [List.length]. lia.
Qed.

Lemma passed_ready (start_time : Z) (t : tick) (frame_count : Z)
    (b : list Byte.byte) (p : Popen) (s : SimulationStream) :
  annotator s <> None -> stdin_closed p = false ->
  ready (passed start_time t frame_count b p s).
Proof.
  intros Ha Hcl. split; [exact Ha |].
  eexists. split; [reflexivity | exact Hcl].
Qed.

(** The conversion of a four-channel image that has pixels. *)
Lemma cvtColor_rgba (elsewhere : result ndarray) (a : ndarray) :
  channels a = 4%nat -> (0 < rows a * cols a)%nat ->
  cvtColor elsewhere (NDArray a)
  = Ok (mkNdarray (rows a) (cols a) 3 (RGBA2BGR (buf a))).
Proof.
  intros Hc Hn. unfold cvtColor. rewrite Hc. simpl.
  destruct (rows a * cols a =? 0)%nat eqn:E; [| reflexivity].
  apply Nat.eqb_eq in E. lia.
Qed.

(** With a benign environment the loop keeps going: every scripted pass runs
    to its end. *)
Lemma loop_completes (start_time : Z) (ticks : list tick) :
  forall (frame_count : Z) (s : SimulationStream),
    Forall (benign start_time) ticks -> ready s ->
    fst (loop start_time ticks frame_count s) = None.
Proof.
  induction ticks as [| t ticks IH]; intros frame_count s Hb Hr;
    [reflexivity |].
  inversion Hb as [| ? ? Ht Hts]; subst.
  destruct Ht as (Hst & Hg & Hw & Hf & Hm & Htl & (a & Hd & Hc & Hn) & Hz).
  destruct Hr as (Ha & p & Hp & Hcl).
  cbn [loop].
  rewrite (iteration_Ok start_time t frame_count s
             (mkNdarray (rows a) (cols a) 3 (RGBA2BGR (buf a))) p);
    auto.
  - apply IH; [assumption |]. apply passed_ready; assumption.
  - rewrite Hd. apply cvtColor_rgba; assumption.
Qed.

(** ** Frames reaching the encoder *)

Lemma RGBA2BGR_length (n : nat) :
  forall l, List.length l = (4 * n)%nat -> List.length (RGBA2BGR l) = (3 * n)%nat.
Proof.
  induction n as [| n IH]; intros l H.
  - destruct l; [reflexivity | discriminate].
  - destruct l as [| r [| g [| b [| al tl]]]]; simpl in H; try lia.
    simpl. rewrite (IH tl) by lia. lia.
Qed.

Lemma encoded_size (w h : Z) (t : tick) :
  yields_rgba w h t -> Z.of_nat (List.length (encoded t)) = w * h * 3.
Proof.
  intros (a & Hd & Hw & Hh & Hc & Hs). unfold encoded, cvtColor.
  rewrite Hd, Hc. simpl. subst w h.
  destruct (rows a * cols a =? 0)%nat eqn:E.
  - apply Nat.eqb_eq in E. simpl. nia.
  - simpl. unfold well_shaped in Hs. rewrite Hc in Hs.
    rewrite (RGBA2BGR_length (rows a * cols a)) by lia. lia.
Qed.

Lemma passed_feeds (start_time : Z) (t : tick) (frame_count : Z)
    (frame : ndarray) (p : Popen) (s : SimulationStream) :
  cvtColor (cvt_elsewhere t) (data t) = Ok frame -> proc s = Some p ->
  let s' := passed start_time t frame_count (tobytes frame) p s in
  written s' = written s ++ [encoded t] /\
  flushed s' = S (flushed s) /\
  orchestrator_steps s' = S (orchestrator_steps s) /\
  piped s' = piped s ++ buffered s ++ encoded t /\
  buffered s' = [].
Proof.
  intros Hcv Hp. unfold written, flushed, piped, buffered, encoded.
  rewrite Hp, Hcv. simpl. auto.
Qed.

Lemma loop_feeds (start_time : Z) (ticks : list tick) :
  forall (frame_count : Z) (s : SimulationStream),
    fst (loop start_time ticks frame_count s) = None ->
    let s' := snd (loop start_time ticks frame_count s) in
    written s' = written s ++ map encoded ticks /\
    flushed s' = (flushed s + List.length ticks)%nat /\
    orchestrator_steps s' = (orchestrator_steps s + List.length ticks)%nat /\
    piped s' ++ buffered s'
    = piped s ++ buffered s ++ List.concat (map encoded ticks) /\
    (ticks <> [] -> buffered s' = []).
Proof.
  induction ticks as [| t ticks IH]; intros frame_count s H; cbn zeta.
  - simpl. rewrite !app_nil_r, !Nat.add_0_r. repeat split; congruence.
  - cbn [loop] in *.
    destruct (iteration start_time t frame_count s) as [[fc' | e] s1] eqn:E;
      [| discriminate].
    apply iteration_Ok_inv in E.
    destruct E as (frame & p & _ & _ & _ & _ & _ & _ & _ & Hcv & Hp & _ & _ & _ & ->).
    specialize (IH _ _ H). cbn zeta in IH. destruct IH as (W & F & O & P & B).
    destruct (passed_feeds start_time t frame_count frame p s Hcv Hp)
      as (W1 & F1 & O1 & P1 & B1).
    rewrite W, F, O, P, W1, F1, O1, P1, B1. cbn [map List.length List.concat].
    rewrite <- !app_assoc. simpl.
    repeat split; try lia.
    intros _. destruct ticks as [| t' ticks']; [exact B1 | apply B; discriminate].
Qed.

(** C1: a run of the loop that completes N passes has stepped the simulation
    N times and written (and flushed) exactly N frames to the encoder's input
    channel, the converted frame of each pass in order; when the annotator
    yields a width x height RGBA frame in every pass, each written frame is
    width x height x 3 bytes long.  All their bytes are in the pipe, after
    what was there or buffered before, and nothing is left in the buffer. *)
Theorem loop_writes_one_frame_per_step (start_time : Z) (ticks : list tick)
    (frame_count : Z) (s : SimulationStream) :
  fst (loop start_time ticks frame_count s) = None ->
  let s' := snd (loop start_time ticks frame_count s) in
  written s' = written s ++ map encoded ticks /\
  List.length (written s') = (List.length (written s) + List.length ticks)%nat /\
  flushed s' = (flushed s + List.length ticks)%nat /\
  orchestrator_steps s' = (orchestrator_steps s + List.length ticks)%nat /\
  (Forall (yields_rgba (width s) (height s)) ticks ->
   Forall (fun b => Z.of_nat (List.length b) = width s * height s * 3)
     (map encoded ticks)) /\
  piped s' ++ buffered s' = piped s ++ buffered s ++ List.concat (map encoded ticks) /\
  (ticks <> [] -> buffered s' = []).
Proof.
  intros H s'.
  destruct (loop_feeds start_time ticks frame_count s H) as (W & F & O & P & B).
  fold s' in W, F, O, P, B. repeat split; try assumption.
  - rewrite W, length_app, length_map. reflexivity.
  - intros Hy. apply Forall_map. revert Hy. apply Forall_impl.
    intros t. apply encoded_size.
Qed.

(** ** Throughput reports *)

Lemma passed_reports (start_time : Z) (t : tick) (frame_count : Z)
    (b : list Byte.byte) (p : Popen) (s : SimulationStream) :
  reports (passed start_time t frame_count b p s)
  = reports s ++ report start_time t frame_count.
Proof.
  unfold reports, passed; simpl. rewrite filter_app. f_equal.
  simpl. unfold report. destruct (_ =? 0); reflexivity.
Qed.

Lemma loop_reports (start_time : Z) (ticks : list tick) :
  forall (frame_count : Z) (s : SimulationStream),
    fst (loop start_time ticks frame_count s) = None ->
    reports (snd (loop start_time ticks frame_count s))
    = reports s ++ due start_time frame_count ticks.
Proof.
  induction ticks as [| t ticks IH]; intros frame_count s H.
  - simpl. unfold due; simpl. rewrite app_nil_r. reflexivity.
  - cbn [loop] in *.
    destruct (iteration start_time t frame_count s) as [[fc' | e] s1] eqn:E;
      [| discriminate].
    apply iteration_Ok_inv in E.
    destruct E as (a & p & _ & _ & _ & _ & _ & _ & _ & _ & _ & _ & _ & -> & ->).
    rewrite IH by assumption. rewrite passed_reports, <- app_assoc. f_equal.
    unfold due, report. cbn [numbered filter fst].
    destruct (_ =? 0); reflexivity.
Qed.

Lemma due_length (start_time : Z) (ticks : list tick) :
  forall frame_count : Z,
    Z.of_nat (List.length (due start_time frame_count ticks))
    = (frame_count + Z.of_nat (List.length ticks)) / 100 - frame_count / 100.
Proof.
  unfold due. induction ticks as [| t ticks IH]; intros frame_count.
  - simpl. rewrite Z.add_0_r. lia.
  - cbn [numbered filter fst List.length].
    specialize (IH (frame_count + 1)). rewrite length_map in *.
    destruct ((frame_count + 1) mod 100 =? 0) eqn:Em.
    + apply Z.eqb_eq in Em. cbn [List.length].
      rewrite Nat2Z.inj_succ, IH, Nat2Z.inj_succ.
      replace (frame_count + Z.succ (Z.of_nat (List.length ticks)))
        with (frame_count + 1 + Z.of_nat (List.length ticks)) by lia.
      assert ((frame_count + 1) / 100 = frame_count / 100 + 1); [| lia].
      pose proof (Z.div_mod (frame_count + 1) 100 ltac:(lia)).
      pose proof (Z.div_mod frame_count 100 ltac:(lia)).
      pose proof (Z.mod_pos_bound frame_count 100 ltac:(lia)).
      lia.
    + apply Z.eqb_neq in Em.
      rewrite IH, Nat2Z.inj_succ.
      replace (frame_count + Z.succ (Z.of_nat (List.length ticks)))
        with (frame_count + 1 + Z.of_nat (List.length ticks)) by lia.
      assert ((frame_count + 1) / 100 = frame_count / 100); [| lia].
      pose proof (Z.div_mod (frame_count + 1) 100 ltac:(lia)).
      pose proof (Z.div_mod frame_count 100 ltac:(lia)).
      pose proof (Z.mod_pos_bound frame_count 100 ltac:(lia)).
      pose proof (Z.mod_pos_bound (frame_count + 1) 100 ltac:(lia)).
      lia.
Qed.

(** ** Cleanup and the exits of [stream] *)

(** [cleanup] runs to its last line, or stops where [close()] raises. *)
Lemma cleanup_cases (c : closing) (s : SimulationStream) :
  cleanup c s
  = match close_outcome c s with
    | Ok _ => (Ok tt, cleaned c s)
    | Raise e => (Raise e, aborted c s)
    end.
Proof.
  unfold cleanup, close_outcome, cleaned, aborted. unfold_M. simpl.
  destruct (proc s) as [p |] eqn:Ep; simpl.
  - destruct (stdin_close c p) as [[[] | e] p']; simpl; f_equal;
      same_instance; rewrite <- ?app_assoc; reflexivity.
  - f_equal. same_instance; rewrite ?Ep, <- ?app_assoc; reflexivity.
Qed.

Lemma finally_cases (c : closing) (pending : stream_outcome)
    (s : SimulationStream) :
  finally_cleanup c pending s
  = match close_outcome c s with
    | Ok _ => (pending, cleaned c s)
    | Raise e => (Propagated e, aborted c s)
    end.
Proof.
  unfold finally_cleanup. rewrite cleanup_cases.
  destruct (close_outcome c s); reflexivity.
Qed.

(** The ways a call of [stream] can look. *)
Lemma stream_cases (start_time : Z) (ticks : list tick) (c : closing)
    (s : SimulationStream) :
  stream start_time ticks c s
  = match loop start_time ticks 0 (started s) with
    | (None, s1) => (Streaming, s1)
    | (Some KeyboardInterrupt, s1) => finally_cleanup c Returned (interrupted s1)
    | (Some e, s1) => finally_cleanup c (Propagated e) s1
    end.
Proof.
  unfold stream, print, modify, bind, get. simpl. fold (started s).
  destruct (loop start_time ticks 0 (started s)) as [[e |] s1];
    [| reflexivity].
  destruct e; reflexivity.
Qed.

(** When [close()] raises: the channel was open, bytes were waiting and the
    environment makes the flush fail. *)
Lemma close_outcome_Raise_inv (c : closing) (s : SimulationStream) (e : exn) :
  close_outcome c s = Raise e ->
  exists p, proc s = Some p /\ stdin_closed p = false /\
            stdin_buffer p <> [] /\ close_fault c = Some e.
Proof.
  unfold close_outcome, stdin_close. intros H.
  destruct (proc s) as [p |]; [| discriminate].
  exists p. split; [reflexivity |].
  destruct (stdin_closed p); [discriminate |].
  destruct (stdin_buffer p); [destruct (close_fault c); discriminate |].
  destruct (close_fault c); [| discriminate].
  simpl in H. repeat split; congruence.
Qed.

Lemma close_outcome_Raise (c : closing) (s : SimulationStream) (p : Popen)
    (e : exn) :
  proc s = Some p -> stdin_closed p = false -> stdin_buffer p <> [] ->
  close_fault c = Some e ->
  close_outcome c s = Raise e.
Proof.
  unfold close_outcome, stdin_close. intros -> -> Hb ->.
  destruct (stdin_buffer p); [congruence | reflexivity].
Qed.

(** [close()] returns when nothing is waiting, and when the encoder takes
    what is. *)
Lemma close_outcome_Ok (c : closing) (s : SimulationStream) :
  buffered s = [] \/ close_fault c = None -> close_outcome c s = Ok tt.
Proof.
  unfold close_outcome, buffered, stdin_close. intros H.
  destruct (proc s) as [p |]; [| reflexivity].
  destruct (stdin_closed p); [reflexivity |].
  destruct H as [-> | ->]; [reflexivity |].
  destruct (stdin_buffer p); reflexivity.
Qed.

Lemma wait_stdin_close_wound_up (c : closing) (p : Popen) :
  wound_up p (wait (snd (stdin_close c p))).
Proof.
  unfold wound_up, wait, stdin_close, once_more.
  destruct (stdin_closed p) eqn:Ec, (waited p) eqn:Ew; simpl;
    rewrite ?Ec, ?Ew; simpl;
    try (destruct (stdin_buffer p), (close_fault c); simpl; rewrite ?Ew; simpl);
    repeat split; auto; discriminate.
Qed.

Lemma cleaned_cleaned_up (c : closing) (s : SimulationStream) :
  cleaned_up s (cleaned c s).
Proof.
  unfold cleaned_up. simpl. split.
  - destruct (proc s) as [p |]; simpl; [| reflexivity].
    eexists. split; [reflexivity | apply wait_stdin_close_wound_up].
  - repeat split. exists (stdout s). reflexivity.
Qed.

Lemma aborted_cut_short (c : closing) (s : SimulationStream) (e : exn) :
  close_outcome c s = Raise e -> cut_short s (aborted c s).
Proof.
  intros H. apply close_outcome_Raise_inv in H.
  destruct H as (p & Hp & Hcl & Hb & Hf).
  unfold cut_short. simpl. rewrite Hp. simpl. split.
  - exists p. eexists. split; [reflexivity |]. split; [reflexivity |].
    unfold stdin_close. rewrite Hcl, Hf.
    destruct (stdin_buffer p); [congruence |]. simpl. repeat split; auto.
  - split; [reflexivity |]. exists (stdout s). reflexivity.
Qed.

(** A cleanup after passes of the loop is a cleanup of the instance the loop
    started on: the passes leave alone what it gives back. *)
Lemma cleaned_up_after (s s1 s' : SimulationStream) :
  same_setup s s1 -> cleaned_up s1 s' -> cleaned_up s s'.
Proof.
  intros (_ & Hsim & _ & _ & _ & Hp) (Hw & Hst & Hcc & Hout).
  unfold cleaned_up. rewrite <- Hsim. repeat split; try assumption.
  destruct (proc s) as [p |].
  - destruct Hp as (p1 & Ep1 & (Ha & Hcl & Hfd & Hwt & Hr)).
    rewrite Ep1 in Hw. destruct Hw as (p' & Ep' & W).
    exists p'. split; [assumption |].
    unfold wound_up in *. rewrite <- Ha, <- Hcl, <- Hfd, <- Hwt, <- Hr.
    exact W.
  - rewrite Hp in Hw. exact Hw.
Qed.

Lemma cut_short_after (s s1 s' : SimulationStream) :
  same_setup s s1 -> cut_short s1 s' -> cut_short s s'.
Proof.
  intros (_ & Hsim & _ & _ & _ & Hp) ((p1 & p' & Ep1 & Ep' & C) & Hs & Hout).
  unfold cut_short. rewrite <- Hsim. repeat split; try assumption.
  destruct (proc s) as [p |]; [| congruence].
  destruct Hp as (p1' & Ep1' & (Ha & Hcl & Hfd & Hwt & Hr)).
  assert (p1' = p1) by congruence. subst p1'.
  exists p, p'. split; [reflexivity |]. split; [assumption |].
  rewrite <- Ha, <- Hcl, <- Hfd, <- Hwt, <- Hr. exact C.
Qed.

(** Neither end of [cleanup] touches what was written, flushed, stepped or
    reported. *)
Lemma stdin_close_keeps (c : closing) (p : Popen) :
  stdin_received (snd (stdin_close c p)) = stdin_received p /\
  stdin_flushes (snd (stdin_close c p)) = stdin_flushes p /\
  waited (snd (stdin_close c p)) = waited p /\
  reaps (snd (stdin_close c p)) = reaps p.
Proof.
  unfold stdin_close. destruct (stdin_closed p); [auto |].
  destruct (stdin_buffer p), (close_fault c); simpl; auto.
Qed.

Lemma wait_keeps (p : Popen) :
  stdin_received (wait p) = stdin_received p /\
  stdin_flushes (wait p) = stdin_flushes p /\
  stdin_pipe (wait p) = stdin_pipe p /\
  stdin_buffer (wait p) = stdin_buffer p.
Proof. unfold wait. destruct (waited p); simpl; auto. Qed.

Lemma cleaned_traffic (c : closing) (s : SimulationStream) :
  written (cleaned c s) = written s /\ flushed (cleaned c s) = flushed s /\
  orchestrator_steps (cleaned c s) = orchestrator_steps s /\
  reports (cleaned c s) = reports s.
Proof.
  unfold written, flushed, reports. simpl.
  destruct (proc s) as [p |]; simpl.
  - destruct (wait_keeps (snd (stdin_close c p))) as (-> & -> & _).
    destruct (stdin_close_keeps c p) as (-> & -> & _).
    rewrite filter_app, app_nil_r. auto.
  - rewrite filter_app, app_nil_r. auto.
Qed.

Lemma aborted_traffic (c : closing) (s : SimulationStream) :
  written (aborted c s) = written s /\ flushed (aborted c s) = flushed s /\
  orchestrator_steps (aborted c s) = orchestrator_steps s /\
  reports (aborted c s) = reports s.
Proof.
  unfold written, flushed, reports. simpl.
  destruct (proc s) as [p |]; simpl.
  - destruct (stdin_close_keeps c p) as (-> & -> & _).
    rewrite filter_app, app_nil_r. auto.
  - rewrite filter_app, app_nil_r. auto.
Qed.

(** ** Runs that end *)

Lemma loop_raises (start_time : Z) (pre post : list tick) (t : tick)
    (s : SimulationStream) (e : exn) :
  fst (loop start_time pre 0 s) = None ->
  fst (iteration start_time t (Z.of_nat (List.length pre))
         (snd (loop start_time pre 0 s))) = Raise e ->
  loop start_time (pre ++ t :: post) 0 s
  = (Some e, snd (iteration start_time t (Z.of_nat (List.length pre))
                    (snd (loop start_time pre 0 s)))).
Proof.
  intros Hpre Ht. rewrite loop_app by assumption. rewrite Z.add_0_l.
  cbn [loop].
  destruct (iteration start_time t (Z.of_nat (List.length pre))
              (snd (loop start_time pre 0 s))) as [[fc | e'] s1];
    simpl in *; congruence.
Qed.


(** The loop leaves a ready instance ready. *)
Lemma same_setup_ready (s s' : SimulationStream) :
  same_setup s s' -> ready s -> ready s'.
Proof.
  intros (_ & _ & Ha & _ & _ & Hp) (Hn & p & Ep & Hcl).
  rewrite Ep in Hp. destruct Hp as (p' & Ep' & (_ & Hc & _)).
  split; [congruence |]. exists p'. split; [assumption | congruence].
Qed.

Lemma same_setup_started (s : SimulationStream) : same_setup s (started s).
Proof. apply (keeps_print Starting_camera_stream_loop s). Qed.

Lemma same_setup_interrupted (s : SimulationStream) :
  same_setup s (interrupted s).
Proof. apply (keeps_print Received_keyboard_interrupt s). Qed.

(** Whatever the passes did, the instance the loop stopped on has the setup
    of the instance [stream] was called on. *)
Lemma same_setup_loop_started (start_time : Z) (ticks : list tick)
    (s : SimulationStream) :
  same_setup s (snd (loop start_time ticks 0 (started s))).
Proof.
  eapply same_setup_trans; [apply same_setup_started | apply loop_same_setup].
Qed.

(** *** A pass whose flush fails *)

(** The write returned and the flush raised: the frame counts as written,
    and what neither call handed to the pipe is still in the buffer. *)
Lemma iteration_flush_fails (start_time : Z) (t : tick) (frame_count : Z)
    (s : SimulationStream) (frame : ndarray) (p : Popen) (e : exn) :
  step_fault t = None -> annotator s <> None -> get_data_fault t = None ->
  cvtColor (cvt_elsewhere t) (data t) = Ok frame ->
  proc s = Some p -> stdin_closed p = false ->
  write_fault t = None -> flush_fault t = Some e ->
  let r := iteration start_time t frame_count s in
  fst r = Raise e /\
  written (snd r) = written s ++ [tobytes frame] /\
  buffered (snd r)
  = skipn (flush_sent t)
      (skipn (write_sent t) (buffered s ++ tobytes frame)).
Proof.
  intros Hst Ha Hg Hcv Hp Hcl Hw Hf.
  unfold iteration, written, buffered. unfold_M.
  rewrite Hst. simpl.
  destruct (annotator s) as [an |] eqn:Ea; [| congruence].
  rewrite Hg. simpl. rewrite Hcv. simpl.
  rewrite Hp, Hcl, Hw. simpl. rewrite ?Hcl, Hf. simpl. auto.
Qed.

Lemma skipn_skipn_left (n m : nat) (l : list Byte.byte) :
  (n + m < List.length l)%nat -> skipn m (skipn n l) <> [].
Proof.
  intros H E. apply (f_equal (@List.length _)) in E.
  rewrite !length_skipn in E. simpl in E. lia.
Qed.

(** After completed passes, a pass whose flush fails before the frame is
    through ends the loop with bytes of the frame in the buffer of an open
    channel. *)
Lemma loop_flush_fails (start_time : Z) (pre post : list tick) (t : tick)
    (s : SimulationStream) (frame : ndarray) (e : exn) :
  ready s ->
  fst (loop start_time pre 0 (started s)) = None ->
  step_fault t = None -> get_data_fault t = None ->
  cvtColor (cvt_elsewhere t) (data t) = Ok frame ->
  write_fault t = None -> flush_fault t = Some e ->
  (write_sent t + flush_sent t < List.length (tobytes frame))%nat ->
  exists s1 p1,
    loop start_time (pre ++ t :: post) 0 (started s) = (Some e, s1) /\
    same_setup s s1 /\
    written s1 = written s ++ map encoded pre ++ [tobytes frame] /\
    proc s1 = Some p1 /\ stdin_closed p1 = false /\ stdin_buffer p1 <> [].
Proof.
  intros Hr Hpre Hst Hg Hcv Hw Hf Hlen.
  pose proof (same_setup_loop_started start_time pre s) as K.
  destruct (same_setup_ready _ _ K Hr) as (Ha & p & Hp & Hcl).
  destruct (iteration_flush_fails start_time t (Z.of_nat (List.length pre)) _
              frame p e Hst Ha Hg Hcv Hp Hcl Hw Hf) as (Hfst & Hwr & Hbuf).
  pose proof (keeps_iteration start_time t (Z.of_nat (List.length pre))
                (snd (loop start_time pre 0 (started s)))) as K1.
  rewrite (loop_raises start_time pre post t (started s) e Hpre Hfst).
  set (s1 := snd (iteration _ _ _ _)) in *.
  assert (R1 : ready s1) by (apply (same_setup_ready _ _ K1); split; eauto).
  destruct R1 as (_ & p1 & Hp1 & Hcl1).
  exists s1, p1. split; [reflexivity |].
  split; [eapply same_setup_trans; eassumption |].
  split.
  { rewrite Hwr. destruct (loop_feeds start_time pre 0 (started s) Hpre) as (W & _).
    rewrite W, <- app_assoc. reflexivity. }
  split; [assumption |]. split; [assumption |].
  unfold buffered in Hbuf. rewrite Hp1 in Hbuf. rewrite Hbuf.
  apply skipn_skipn_left. rewrite length_app. lia.
Qed.

(** C5: a write that fails mid-loop does not always let [cleanup] complete.
    When the encoder is gone at the flush of line 150, with bytes of the
    frame still in the buffer, the flush raises and the loop ends; the
    [close()] of line 171 then flushes the same bytes and raises again:
    [cleanup] stops there, the child is not waited for, the simulator is not
    closed, and what [stream] raises is the error of [close()]. *)
Theorem flush_failure_aborts_cleanup (start_time : Z) (pre post : list tick)
    (t : tick) (c : closing) (s : SimulationStream) (frame : ndarray)
    (e e' : exn) :
  ready s ->
  fst (loop start_time pre 0 (started s)) = None ->
  step_fault t = None -> get_data_fault t = None ->
  cvtColor (cvt_elsewhere t) (data t) = Ok frame ->
  write_fault t = None -> flush_fault t = Some e -> e <> KeyboardInterrupt ->
  (write_sent t + flush_sent t < List.length (tobytes frame))%nat ->
  close_fault c = Some e' ->
  let r := stream start_time (pre ++ t :: post) c s in
  fst r = Propagated e' /\
  cut_short s (snd r) /\
  written (snd r) = written s ++ map encoded pre ++ [tobytes frame] /\
  (close_calls (simulator s) = 0%nat -> ~ released (snd r)).
Proof.
  intros Hr Hpre Hst Hg Hcv Hw Hf He Hlen Hc. cbn zeta.
  destruct (loop_flush_fails start_time pre post t s frame e
              Hr Hpre Hst Hg Hcv Hw Hf Hlen)
    as (s1 & p1 & Hloop & K & Hwr & Hp1 & Hcl1 & Hb1).
  pose proof (close_outcome_Raise c s1 p1 e' Hp1 Hcl1 Hb1 Hc) as Hco.
  rewrite stream_cases, Hloop.
  assert (E : (if true then finally_cleanup c (Propagated e) s1 else
                 finally_cleanup c (Propagated e) s1)
              = (Propagated e', aborted c s1)).
  { rewrite finally_cases, Hco. reflexivity. }
  assert (G : match e with
              | KeyboardInterrupt => finally_cleanup c Returned (interrupted s1)
              | _ => finally_cleanup c (Propagated e) s1
              end = (Propagated e', aborted c s1)).
  { destruct e; try exact E. congruence. }
  rewrite G. cbn [fst snd].
  assert (C : cut_short s (aborted c s1)).
  { apply (cut_short_after s s1); [exact K |].
    apply (aborted_cut_short c s1 e' Hco). }
  split; [reflexivity |]. split; [exact C |].
  split.
  { destruct (aborted_traffic c s1) as (-> & _). exact Hwr. }
  intros H0 (_ & Hrel).
  destruct C as (_ & Hsim & _). rewrite Hsim, H0 in Hrel. lia.
Qed.

(** C7: an interrupt does not always end [stream] normally.  When it
    surfaces in the flush of line 150, with bytes of the frame still in the
    buffer, and the encoder is gone when [cleanup] closes the pipe, the
    except clause prints its line, [close()] raises in line 171, [cleanup]
    stops there and [stream] raises that error instead of returning. *)
Theorem interrupt_with_encoder_gone_raises (start_time : Z)
    (pre post : list tick) (t : tick) (c : closing) (s : SimulationStream)
    (frame : ndarray) (e' : exn) :
  ready s ->
  fst (loop start_time pre 0 (started s)) = None ->
  step_fault t = None -> get_data_fault t = None ->
  cvtColor (cvt_elsewhere t) (data t) = Ok frame ->
  write_fault t = None -> flush_fault t = Some KeyboardInterrupt ->
  (write_sent t + flush_sent t < List.length (tobytes frame))%nat ->
  close_fault c = Some e' ->
  let r := stream start_time (pre ++ t :: post) c s in
  fst r = Propagated e' /\
  In Received_keyboard_interrupt (stdout (snd r)) /\
  cut_short s (snd r) /\
  (close_calls (simulator s) = 0%nat -> ~ released (snd r)).
Proof.
  intros Hr Hpre Hst Hg Hcv Hw Hf Hlen Hc. cbn zeta.
  destruct (loop_flush_fails start_time pre post t s frame KeyboardInterrupt
              Hr Hpre Hst Hg Hcv Hw Hf Hlen)
    as (s1 & p1 & Hloop & K & Hwr & Hp1 & Hcl1 & Hb1).
  assert (Hco : close_outcome c (interrupted s1) = Raise e').
  { apply (close_outcome_Raise c (interrupted s1) p1 e'); assumption. }
  rewrite stream_cases, Hloop, finally_cases, Hco. cbn [fst snd].
  assert (C : cut_short s (aborted c (interrupted s1))).
  { apply (cut_short_after s (interrupted s1)).
    - eapply same_setup_trans; [exact K | apply same_setup_interrupted].
    - apply (aborted_cut_short c _ e' Hco). }
  split; [reflexivity |].
  split.
  { simpl. apply in_or_app. left. apply in_or_app. right. left. reflexivity. }
  split; [exact C |].
  intros H0 (_ & Hrel).
  destruct C as (_ & Hsim & _). rewrite Hsim, H0 in Hrel. lia.
Qed.

(** *** A clock that has not moved *)

Lemma loop_ready (start_time : Z) (ticks : list tick) :
  forall (frame_count : Z) (s : SimulationStream),
    fst (loop start_time ticks frame_count s) = None -> ticks <> [] ->
    ready (snd (loop start_time ticks frame_count s)).
Proof.
  induction ticks as [| t ticks IH]; intros frame_count s H Hne;
    [congruence |].
  cbn [loop] in *.
  destruct (iteration start_time t frame_count s) as [[fc' | e] s1] eqn:E;
    [| discriminate].
  apply iteration_Ok_inv in E.
  destruct E as (a & p & _ & _ & _ & _ & _ & _ & Ha & _ & _ & Hcl & _ & _ & ->).
  destruct ticks as [| t' ticks'].
  - cbn [loop snd]. apply passed_ready; assumption.
  - apply IH; [assumption | discriminate].
Qed.

Lemma iteration_zero_division (start_time : Z) (t : tick) (frame_count : Z)
    (s : SimulationStream) (frame : ndarray) (p : Popen) :
  step_fault t = None -> get_data_fault t = None ->
  write_fault t = None -> flush_fault t = None ->
  metrics_fault t = None -> tail_fault t = None ->
  annotator s <> None -> cvtColor (cvt_elsewhere t) (data t) = Ok frame ->
  proc s = Some p -> stdin_closed p = false ->
  (frame_count + 1) mod 100 = 0 -> report_time t = start_time ->
  iteration start_time t frame_count s
  = (Raise ZeroDivisionError,
     set_stdout
       (stdout s ++ [Simulation_step_took (step_end t - step_start t);
                     Total_frame_processing_took (frame_end t - frame_start t)])
       (set_proc (Some (fed p (tobytes frame)))
          (set_orchestrator_steps (S (orchestrator_steps s)) s))).
Proof.
  intros Hst Hg Hw Hf Hmt Htl Ha Hcv Hp Hcl Hm Hz.
  unfold iteration. unfold_M.
  rewrite Hst. simpl.
  destruct (annotator s) as [an |] eqn:Ea; [| congruence].
  rewrite Hg. simpl. rewrite Hcv. simpl.
  rewrite Hp, Hcl, Hw. simpl. rewrite ?Hcl, Hf. simpl.
  rewrite Hmt. simpl. rewrite Htl. simpl.
  apply Z.eqb_eq in Hm. rewrite Hm.
  replace (report_time t - start_time =? 0) with true
    by (symmetry; apply Z.eqb_eq; lia).
  f_equal. same_instance; unfold fed;
    rewrite ?Hcl, ?write_then_flush, <- ?app_assoc; reflexivity.
Qed.

(** C6: the number of throughput lines is not always floor(N/100).  The
    division of line 159 is unguarded: when, after passes that ran to their
    end, the pass that brings the frame count to a multiple of 100 finds the
    clock still at the start time, its frame has been stepped, written,
    flushed and counted, but the division raises and the line of line 160 is
    never printed: [stream] raises [ZeroDivisionError] with N frames written
    and floor(N/100) - 1 lines printed. *)
Theorem zero_elapsed_time_drops_report (start_time : Z) (pre post : list tick)
    (t : tick) (c : closing) (s : SimulationStream) (frame : ndarray) :
  fst (loop start_time pre 0 (started s)) = None ->
  step_fault t = None -> get_data_fault t = None ->
  cvtColor (cvt_elsewhere t) (data t) = Ok frame ->
  write_fault t = None -> flush_fault t = None ->
  metrics_fault t = None -> tail_fault t = None ->
  (Z.of_nat (List.length pre) + 1) mod 100 = 0 ->
  report_time t = start_time ->
  let r := stream start_time (pre ++ t :: post) c s in
  fst r = Propagated ZeroDivisionError /\
  written (snd r) = written s ++ map encoded (pre ++ [t]) /\
  flushed (snd r) = (flushed s + List.length pre + 1)%nat /\
  orchestrator_steps (snd r)
  = (orchestrator_steps s + List.length pre + 1)%nat /\
  reports (snd r) = reports s ++ due start_time 0 pre /\
  Z.of_nat (List.length (reports (snd r)))
  = Z.of_nat (List.length (reports s))
    + (Z.of_nat (List.length pre) + 1) / 100 - 1 /\
  cleaned_up s (snd r).
Proof.
  intros Hpre Hst Hg Hcv Hw Hf Hmt Htl Hm Hz. cbn zeta.
  assert (Hne : pre <> []).
  { intros ->. simpl in Hm. discriminate Hm. }
  destruct (loop_ready start_time pre 0 (started s) Hpre Hne)
    as (Ha & p & Hp & Hcl).
  pose proof (iteration_zero_division start_time t (Z.of_nat (List.length pre))
                _ frame p Hst Hg Hw Hf Hmt Htl Ha Hcv Hp Hcl Hm Hz) as Hit.
  pose proof (keeps_iteration start_time t (Z.of_nat (List.length pre))
                (snd (loop start_time pre 0 (started s)))) as K1.
  rewrite stream_cases.
  rewrite (loop_raises start_time pre post t (started s) ZeroDivisionError Hpre)
    by (rewrite Hit; reflexivity).
  rewrite Hit in *. cbn [fst snd] in *.
  destruct (loop_feeds start_time pre 0 (started s) Hpre) as (W & F & O & _).
  pose proof (loop_reports start_time pre 0 (started s) Hpre) as R.
  pose proof (same_setup_loop_started start_time pre s) as K.
  set (s0 := snd (loop start_time pre 0 (started s))) in *.
  set (s1 := set_stdout _ _) in *.
  assert (En : encoded t = tobytes frame).
  { unfold encoded. rewrite Hcv. reflexivity. }
  assert (Hco : close_outcome c s1 = Ok tt).
  { apply close_outcome_Ok. left. reflexivity. }
  rewrite finally_cases, Hco. cbn [fst snd].
  destruct (cleaned_traffic c s1) as (Cw & Cf & Co & Cr).
  assert (Rs : reports (cleaned c s1) = reports s ++ due start_time 0 pre).
  { rewrite Cr. unfold reports in *. subst s1. simpl.
    rewrite filter_app. simpl. rewrite app_nil_r, R.
    unfold started. simpl. rewrite filter_app. simpl.
    rewrite app_nil_r. reflexivity. }
  split; [reflexivity |].
  split.
  { rewrite Cw. unfold written at 1. subst s1. simpl.
    assert (Hs0 : stdin_received p = written s0)
      by (unfold written; rewrite Hp; reflexivity).
    rewrite Hs0, W, map_app, <- app_assoc. cbn [map]. rewrite En.
    reflexivity. }
  split.
  { rewrite Cf. unfold flushed at 1. subst s1. simpl.
    assert (Hs0 : stdin_flushes p = flushed s0)
      by (unfold flushed; rewrite Hp; reflexivity).
    rewrite Hs0, F. unfold flushed, started. simpl. lia. }
  split.
  { rewrite Co. subst s1. simpl. rewrite O. unfold started. simpl. lia. }
  split; [exact Rs |].
  split.
  { rewrite Rs, length_app, Nat2Z.inj_add, due_length.
    rewrite Z.add_0_l. change (0 / 100) with 0.
    assert ((Z.of_nat (List.length pre) + 1) / 100
            = Z.of_nat (List.length pre) / 100 + 1); [| lia].
    pose proof (Z.div_mod (Z.of_nat (List.length pre) + 1) 100 ltac:(lia)).
    pose proof (Z.div_mod (Z.of_nat (List.length pre)) 100 ltac:(lia)).
    pose proof (Z.mod_pos_bound (Z.of_nat (List.length pre)) 100 ltac:(lia)).
    lia. }
  apply (cleaned_up_after s s1).
  - eapply same_setup_trans; [exact K | exact K1].
  - apply cleaned_cleaned_up.
Qed.

(** *** The configuration *)

(** C8: neither [stream], however it ends, nor [cleanup], however it ends,
    changes the configuration of the instance: width, height, frame rate,
    camera path, annotator kind, transport kind and destination URL are
    afterwards what they were. *)
Theorem config_never_mutated (start_time : Z) (ticks : list tick)
    (c : closing) (s : SimulationStream) :
  config (snd (stream start_time ticks c s)) = config s /\
  config (snd (cleanup c s)) = config s.
Proof.
  assert (C : forall s0, config (snd (cleanup c s0)) = config s0).
  { intros s0. rewrite cleanup_cases.
    destruct (close_outcome c s0); reflexivity. }
  assert (F : forall pending s0,
             config (snd (finally_cleanup c pending s0)) = config s0).
  { intros pending s0. rewrite finally_cases.
    destruct (close_outcome c s0); reflexivity. }
  split; [| apply C].
  rewrite stream_cases.
  pose proof (same_setup_loop_started start_time ticks s) as K.
  destruct (loop start_time ticks 0 (started s)) as [[e |] s1]; simpl in K.
  - destruct K as (K & _). destruct e; rewrite F; exact K.
  - apply K.
Qed.

(** ** Calling [cleanup] twice *)

(** Once the channel is closed [close()] returns, whatever the encoder
    does. *)
Lemma close_outcome_closed (c c' : closing) (s : SimulationStream) :
  close_outcome c' (snd (cleanup c s)) = Ok tt.
Proof.
  rewrite cleanup_cases. unfold close_outcome at 1.
  assert (H : forall p, stdin_closed (snd (stdin_close c p)) = true).
  { intros p. unfold stdin_close. destruct (stdin_closed p) eqn:E; [exact E |].
    destruct (stdin_buffer p), (close_fault c); reflexivity. }
  assert (G : forall p, stdin_closed p = true -> fst (stdin_close c' p) = Ok tt).
  { intros p E. unfold stdin_close. rewrite E. reflexivity. }
  destruct (close_outcome c s); cbn [snd cleaned aborted proc];
    destruct (proc s) as [p |]; simpl; try reflexivity; apply G.
  - unfold wait. destruct (waited _); simpl; apply H.
  - apply H.
Qed.



(** ** Setup *)

Ltac unfold_setup :=
  unfold __init__, _load_stage, _setup_camera, _setup_ffmpeg,
    _setup_annotator, open_stage, get_stage, scene_seen, simulator_seen,
    truthy in *;
  unfold_M.

Lemma init_Ok_inv (env : setup_env) (sim : Simulator) (w h f : Z)
    (cam : string) (ann : AnnotatorType) (tr : TransportType) (url : string)
    (usd_path : option string) :
  fst (__init__ env sim w h f cam ann tr url usd_path) = Ok tt ->
  (exists stg, scene_seen env sim usd_path = Some stg /\
               GetPrimAtPath stg cam = true) /\
  render_product_fault env = None /\ popen_fault env = None /\
  get_annotator_fault env = None /\ attach_fault env = None /\
  snd (__init__ env sim w h f cam ann tr url usd_path)
  = constructed env sim w h f cam ann tr url usd_path.
Proof.
  unfold constructed. unfold_setup.
  destruct usd_path as [p |]; [destruct (String.eqb p "") |]; simpl.
  all: match goal with
       | |- context [match ?x with Some _ => _ | None => _ end] =>
           destruct x as [stg |] eqn:Es; simpl; [| intro; discriminate]
       end.
  all: destruct (GetPrimAtPath stg cam) eqn:Ecam; simpl;
         [| intro; discriminate].
  all: destruct (render_product_fault env); simpl; [intro; discriminate |].
  all: destruct (popen_fault env); simpl; [intro; discriminate |].
  all: destruct (get_annotator_fault env); simpl; [intro; discriminate |].
  all: destruct (attach_fault env); simpl; [intro; discriminate |].
  all: intros _; (split; [exists stg; split; [reflexivity | assumption] |]).
  all: repeat (split; [reflexivity |]).
  all: same_instance.
Qed.

Lemma init_Ok (env : setup_env) (sim : Simulator) (w h f : Z)
    (cam : string) (ann : AnnotatorType) (tr : TransportType) (url : string)
    (usd_path : option string) (stg : Stage) :
  scene_seen env sim usd_path = Some stg -> GetPrimAtPath stg cam = true ->
  render_product_fault env = None -> popen_fault env = None ->
  get_annotator_fault env = None -> attach_fault env = None ->
  __init__ env sim w h f cam ann tr url usd_path
  = (Ok tt, constructed env sim w h f cam ann tr url usd_path).
Proof.
  intros Hs Hc Hr Hp Hg Ha. unfold constructed. unfold_setup.
  rewrite Hr, Hp, Hg, Ha.
  destruct usd_path as [p |]; [destruct (String.eqb p "") |]; simpl in *.
  all: rewrite Hs; simpl; rewrite Hc; simpl.
  all: f_equal; same_instance.
Qed.

(** *** A camera that is not in the scene *)

(** C4: when the configured camera path names no prim of the scene that is
    active when the camera is set up, the constructor raises the camera
    error of line 91 and has launched no encoder: no render product, no
    encoder process and no annotator exist. *)
Theorem missing_camera_fails_before_encoder (env : setup_env) (sim : Simulator)
    (w h f : Z) (cam : string) (ann : AnnotatorType) (tr : TransportType)
    (url : string) (usd_path : option string) (stg : Stage) :
  scene_seen env sim usd_path = Some stg ->
  GetPrimAtPath stg cam = false ->
  let r := __init__ env sim w h f cam ann tr url usd_path in
  fst r = Raise (RuntimeError ("Failed to find camera at path: " ++ cam)%string) /\
  proc (snd r) = None /\ render_product (snd r) = None /\
  annotator (snd r) = None.
Proof.
  intros Hs Hc. unfold_setup.
  destruct usd_path as [p |]; [destruct (String.eqb p "") |]; simpl in *.
  all: rewrite Hs; simpl; rewrite Hc; simpl; auto.
Qed.

(** *** A failure after the encoder was launched *)

(** C2, at the failing input: when the annotator registry raises [e], in a
    construction where everything before went through, the constructor
    raises [e] with the encoder process launched and still running (input
    channel open, not waited for), the simulator not closed, and no line of
    [cleanup] printed: [cleanup] has not run. *)
Theorem annotator_failure_leaves_encoder_running (resolve : string -> string)
    (stg : Stage) (closes : nat) (w h f : Z) (cam : string)
    (ann : AnnotatorType) (tr : TransportType) (url : string) (e : exn) :
  let env := mkSetupEnv resolve None None None (Some e) None in
  let sim := mkSimulator (Some (cam :: stg)) closes in
  let r := __init__ env sim w h f cam ann tr url None in
  fst r = Raise e /\
  (exists p, proc (snd r) = Some p /\
             stdin_closed p = false /\ waited p = false) /\
  ~ released (snd r) /\
  close_calls (simulator (snd r)) = closes /\
  stdout (snd r) = [].
Proof.
  unfold_setup. unfold GetPrimAtPath. simpl. rewrite String.eqb_refl. simpl.
  split; [reflexivity |]. split; [eexists; repeat split |].
  split; [| split; reflexivity].
  intros (R & _). specialize (R _ eq_refl). destruct R as (R & _).
  discriminate R.
Qed.

(** *** The encoder's command line *)

Lemma str_inj (a b : Z) : str a = str b -> a = b.
Proof.
  unfold str. intros H. apply DecimalZ.to_int_inj.
  assert (N : forall z, Z.to_int z <> Decimal.Pos Decimal.Nil /\
                        Z.to_int z <> Decimal.Neg Decimal.Nil).
  { intros [| p | p]; simpl; split; try discriminate;
      intros E; injection E; apply DecimalPos.Unsigned.to_uint_nonnil. }
  apply (f_equal NilZero.int_of_string) in H.
  rewrite !NilZero.isi in H by apply N. congruence.
Qed.

Lemma digits_no_x (d : Decimal.uint) :
  occurs "x"%char (NilEmpty.string_of_uint d) = false.
Proof. induction d; simpl; auto. Qed.

Lemma str_no_x (n : Z) : occurs "x"%char (str n) = false.
Proof.
  unfold str, NilZero.string_of_int, NilZero.string_of_uint.
  destruct (Z.to_int n) as [d | d]; destruct d;
    try reflexivity; try apply digits_no_x;
    cbn [occurs]; rewrite ?orb_false_l; apply (digits_no_x (_ d)).
Qed.

Lemma split_at_x (a c b d : string) :
  occurs "x"%char a = false -> occurs "x"%char c = false ->
  (a ++ String "x"%char b)%string = (c ++ String "x"%char d)%string ->
  a = c /\ b = d.
Proof.
  revert c. induction a as [| ch a IH]; intros [| ch' c] Ha Hc H;
    cbn [String.append occurs] in *.
  - injection H as ->. auto.
  - injection H as <- _. simpl in Hc. discriminate.
  - injection H as -> _. simpl in Ha. discriminate.
  - injection H as -> H. apply orb_false_elim in Ha, Hc.
    destruct (IH c) as (-> & ->); [apply Ha | apply Hc | exact H | auto].
Qed.

Lemma TransportType_str_inj (t t' : TransportType) :
  TransportType_str t = TransportType_str t' -> t = t'.
Proof. destruct t, t'; simpl; intros H; try reflexivity; discriminate. Qed.

(** A command line comes from one configuration only. *)
Lemma command_inj (s s' : SimulationStream) :
  command s = command s' ->
  width s = width s' /\ height s = height s' /\ fps s = fps s' /\
  transport s = transport s' /\ rtsp_url s = rtsp_url s'.
Proof.
  unfold command. intros H.
  injection H as Hres Hfps Htr Hurl.
  apply split_at_x in Hres; try apply str_no_x.
  destruct Hres as (Hw & Hh).
  apply str_inj in Hw, Hh, Hfps. apply TransportType_str_inj in Htr.
  auto.
Qed.

(** C9: a construction that runs through has launched the encoder with the
    command line of lines 101-116: raw video from its standard input in the
    one pixel format [bgr24], [-s] with the resolution that was bound to the
    render product, [-r] with the configured frame rate, the configured
    transport and, last, the configured URL; and no other width, height,
    frame rate, transport or URL gives that command line. *)
Theorem encoder_command_reflects_config (env : setup_env) (sim : Simulator)
    (w h f : Z) (cam : string) (ann : AnnotatorType) (tr : TransportType)
    (url : string) (usd_path : option string) :
  fst (__init__ env sim w h f cam ann tr url usd_path) = Ok tt ->
  let self := snd (__init__ env sim w h f cam ann tr url usd_path) in
  exists p rp,
    proc self = Some p /\ render_product self = Some rp /\
    config self = mkStreamConfig w h f cam ann tr url /\
    rp_camera rp = cam /\ resolution rp = (w, h) /\
    args p =
      [ "ffmpeg"; "-y"; "-f"; "rawvideo"; "-vcodec"; "rawvideo";
        "-pix_fmt"; "bgr24";
        "-s"; (str (fst (resolution rp)) ++ "x" ++ str (snd (resolution rp)))%string;
        "-r"; str f; "-i"; "-"; "-an"; "-c:v"; "h264_nvenc";
        "-preset"; "fast"; "-f"; "rtsp";
        "-rtsp_transport"; TransportType_str tr; url ] /\
    args p = command self /\
    (forall self', command self' = args p ->
       width self' = w /\ height self' = h /\ fps self' = f /\
       transport self' = tr /\ rtsp_url self' = url).
Proof.
  intros H self. apply init_Ok_inv in H.
  destruct H as (_ & _ & _ & _ & _ & E). subst self. rewrite E.
  eexists. eexists. split; [reflexivity |]. split; [reflexivity |].
  repeat (split; [reflexivity |]).
  intros self' C.
  apply (command_inj self' (constructed env sim w h f cam ann tr url usd_path)).
  exact C.
Qed.

(** ** The colour conversion *)






(** ** The worked run, checked *)

Lemma loop_writes_one_frame_per_step_witness :
  fst (loop 0 [demo_tick; demo_tick; demo_tick] 0 demo) = None /\
  List.length (written (snd (loop 0 [demo_tick; demo_tick; demo_tick] 0 demo)))
  = 3%nat /\
  Forall (fun b => Z.of_nat (List.length b) = 2 * 1 * 3)
    (map encoded [demo_tick; demo_tick; demo_tick]).
Proof.
  split; [reflexivity |].
  destruct (loop_writes_one_frame_per_step 0 [demo_tick; demo_tick; demo_tick]
              0 demo eq_refl) as (_ & L & _ & _ & F & _).
  split; [exact L |]. apply F.
  repeat constructor; exists demo_frame; repeat split.
Defined.



(** The failing input of C5: two frames go through, the encoder is gone at
    the flush of the third and at the close. *)
Lemma flush_failure_aborts_cleanup_witness :
  let r := stream 0 ([demo_tick; demo_tick] ++ broken_pipe_tick :: [demo_tick])
             encoder_gone demo in
  fst r = Propagated BrokenPipeError /\
  option_map waited (proc (snd r)) = Some false /\
  close_calls (simulator (snd r)) = 0%nat /\
  ~ released (snd r).
Proof.
  destruct (flush_failure_aborts_cleanup 0 [demo_tick; demo_tick] [demo_tick]
              broken_pipe_tick encoder_gone demo
              (mkNdarray 1 2 3
                 [Byte.x03; Byte.x02; Byte.x01; Byte.x06; Byte.x05; Byte.x04])
              BrokenPipeError BrokenPipeError)
    as (P & C & _ & R).
  - split; [discriminate |]. eexists. split; reflexivity.
  - reflexivity.
  - reflexivity.
  - reflexivity.
  - reflexivity.
  - reflexivity.
  - reflexivity.
  - discriminate.
  - simpl. lia.
  - reflexivity.
  - cbn zeta. split; [exact P |].
    split; [reflexivity |]. split; [reflexivity |].
    apply R. reflexivity.
Defined.

(** The failing input of C6: ninety-nine passes, then the hundredth with the
    clock still at the start time. *)
Lemma zero_elapsed_time_drops_report_witness :
  let r := stream 0 (repeat demo_tick 99 ++ stalled_tick :: [demo_tick])
             encoder_alive demo in
  fst r = Propagated ZeroDivisionError /\
  List.length (written (snd r)) = 100%nat /\
  reports (snd r) = [].
Proof.
  destruct (zero_elapsed_time_drops_report 0 (repeat demo_tick 99) [demo_tick]
              stalled_tick encoder_alive demo
              (mkNdarray 1 2 3
                 [Byte.x03; Byte.x02; Byte.x01; Byte.x06; Byte.x05; Byte.x04]))
    as (E & W & _ & _ & R & _).
  - vm_compute. reflexivity.
  - reflexivity.
  - reflexivity.
  - reflexivity.
  - reflexivity.
  - reflexivity.
  - reflexivity.
  - reflexivity.
  - vm_compute. reflexivity.
  - reflexivity.
  - cbn zeta. split; [exact E |].
    split; [rewrite W; vm_compute; reflexivity |].
    rewrite R. vm_compute. reflexivity.
Defined.

(** The failing input of C7: a frame goes through, the interrupt surfaces
    in the flush of the next, and the encoder is gone at the close. *)
Lemma interrupt_with_encoder_gone_raises_witness :
  let r := stream 0 ([demo_tick] ++ interrupt_before_flush_tick :: [demo_tick])
             encoder_gone demo in
  fst r = Propagated BrokenPipeError /\
  In Received_keyboard_interrupt (stdout (snd r)) /\
  option_map waited (proc (snd r)) = Some false /\
  close_calls (simulator (snd r)) = 0%nat.
Proof.
  destruct (interrupt_with_encoder_gone_raises 0 [demo_tick] [demo_tick]
              interrupt_before_flush_tick encoder_gone demo
              (mkNdarray 1 2 3
                 [Byte.x03; Byte.x02; Byte.x01; Byte.x06; Byte.x05; Byte.x04])
              BrokenPipeError)
    as (P & I & _ & _).
  - split; [discriminate |]. eexists. split; reflexivity.
  - reflexivity.
  - reflexivity.
  - reflexivity.
  - reflexivity.
  - reflexivity.
  - reflexivity.
  - simpl. lia.
  - reflexivity.
  - cbn zeta. split; [exact P |]. split; [exact I |].
    split; reflexivity.
Defined.

Lemma missing_camera_fails_before_encoder_witness :
  fst (__init__ demo_env demo_simulator 2 1 30 "/World/nowhere" rgb tcp
         "rtsp://mediamtx:8554/stream" None)
  = Raise (RuntimeError "Failed to find camera at path: /World/nowhere") /\
  proc (snd (__init__ demo_env demo_simulator 2 1 30 "/World/nowhere" rgb tcp
               "rtsp://mediamtx:8554/stream" None)) = None.
Proof.
  destruct (missing_camera_fails_before_encoder demo_env demo_simulator 2 1 30
              "/World/nowhere" rgb tcp "rtsp://mediamtx:8554/stream" None
              ["/World/cam"]) as (E & P & _).
  - reflexivity.
  - reflexivity.
  - split; [exact E | exact P].
Defined.

Lemma encoder_command_reflects_config_witness :
  exists p, proc demo = Some p /\ nth 9 (args p) "" = "2x1" /\
            nth 11 (args p) "" = "30".
Proof.
  destruct (encoder_command_reflects_config demo_env demo_simulator 2 1 30
              "/World/cam" rgb tcp "rtsp://mediamtx:8554/stream" None)
    as (p & rp & P & _ & _ & _ & Hres & A & _).
  - reflexivity.
  - exists p. split; [exact P |]. rewrite A, Hres. split; reflexivity.
Defined.


(** At the failing input of C2 the run is: the constructor raises, the
    encoder it launched is still there with its input channel open. *)
Example annotator_failure_demo :
  let r := __init__ (mkSetupEnv (fun p => p) None None None
                       (Some (ForeignError "AnnotatorError")) None)
             demo_simulator 2 1 30 "/World/cam" rgb tcp
             "rtsp://mediamtx:8554/stream" None in
  fst r = Raise (ForeignError "AnnotatorError") /\
  option_map stdin_closed (proc (snd r)) = Some false /\
  option_map waited (proc (snd r)) = Some false /\
  close_calls (simulator (snd r)) = 0%nat.
Proof. repeat split. Qed.

(** * Further properties of the driver *)

(** ** The byte stream, however a run ends *)

Lemma prefix_refl {A : Type} (l : list A) : prefix l l.
Proof. exists []. rewrite app_nil_r. reflexivity. Qed.

Lemma prefix_app {A : Type} (l r : list A) : prefix l (l ++ r).
Proof. exists r. reflexivity. Qed.

Lemma prefix_trans {A : Type} (l1 l2 l3 : list A) :
  prefix l1 l2 -> prefix l2 l3 -> prefix l1 l3.
Proof.
  intros (r1 & ->) (r2 & ->). exists (r1 ++ r2). rewrite app_assoc. reflexivity.
Qed.

Lemma prefix_app_r {A : Type} (l1 l2 r : list A) :
  prefix l1 l2 -> prefix l1 (l2 ++ r).
Proof. intros H. eapply prefix_trans; [exact H | apply prefix_app]. Qed.

Lemma prefix_app_l {A : Type} (l l1 l2 : list A) :
  prefix l1 l2 -> prefix (l ++ l1) (l ++ l2).
Proof. intros (r & ->). exists r. rewrite app_assoc. reflexivity. Qed.

(** A write that takes [n] bytes of the waiting [buf ++ b] to the pipe and
    gives up what is left of [b] leaves a beginning of [buf ++ b]. *)
Lemma firstn_app_skipn_prefix (n : nat) (buf b : list Byte.byte) :
  prefix (firstn n (buf ++ b) ++ skipn n buf) (buf ++ b).
Proof.
  rewrite firstn_app.
  destruct (Nat.le_gt_cases n (List.length buf)) as [H | H].
  - replace (n - List.length buf)%nat with 0%nat by lia.
    rewrite firstn_O, app_nil_r, firstn_skipn. apply prefix_app.
  - rewrite firstn_all2 by lia. rewrite skipn_all2 by lia.
    rewrite app_nil_r. apply prefix_app_l.
    exists (skipn (n - List.length buf) b). rewrite firstn_skipn. reflexivity.
Qed.

(** One pass, however it ends: the pipe keeps what it had, and what the
    writer holds is a beginning of what it held followed by the frame of the
    pass. *)
Lemma iteration_bytes (start_time : Z) (t : tick) (frame_count : Z)
    (s : SimulationStream) :
  let s1 := snd (iteration start_time t frame_count s) in
  prefix (piped s) (piped s1) /\
  prefix (accepted s1) (accepted s ++ encoded t).
Proof.
  assert (Same : forall s1 : SimulationStream,
             proc s1 = proc s ->
             prefix (piped s) (piped s1) /\
             prefix (accepted s1) (accepted s ++ encoded t)).
  { intros s1 H. unfold accepted, piped, buffered. rewrite H.
    split; [apply prefix_refl | apply prefix_app]. }
  cbn zeta. unfold iteration. unfold_M.
  destruct (step_fault t).
  { destruct (step_done t); apply Same; reflexivity. }
  simpl.
  destruct (annotator s) as [an |] eqn:Ea; [| apply Same; reflexivity].
  destruct (get_data_fault t); [apply Same; reflexivity |]. simpl.
  destruct (cvtColor (cvt_elsewhere t) (data t)) as [frame | e] eqn:Ecv;
    [| apply Same; reflexivity].
  simpl.
  assert (En : encoded t = tobytes frame).
  { unfold encoded. rewrite Ecv. reflexivity. }
  destruct (proc s) as [p |] eqn:Ep;
    [| apply Same; simpl; rewrite Ep; reflexivity].
  destruct (stdin_closed p) eqn:Ecl;
    [apply Same; simpl; rewrite Ep; reflexivity |].
  assert (Fed : forall s1 : SimulationStream,
             proc s1 = Some (fed p (tobytes frame)) ->
             prefix (piped s) (piped s1) /\
             prefix (accepted s1) (accepted s ++ encoded t)).
  { intros s1 H. unfold accepted, piped, buffered. rewrite H, Ep, En. simpl.
    split; [apply prefix_app |].
    rewrite app_nil_r, <- app_assoc. apply prefix_refl. }
  destruct (write_fault t).
  { simpl. unfold accepted, piped, buffered. simpl. rewrite Ep, En.
    split; [apply prefix_app |].
    rewrite <- !app_assoc. apply prefix_app_l, firstn_app_skipn_prefix. }
  simpl. rewrite ?Ecl.
  destruct (flush_fault t).
  { simpl. unfold accepted, piped, buffered. simpl. rewrite Ep, En.
    split; [rewrite <- app_assoc; apply prefix_app |].
    rewrite <- !app_assoc, !firstn_skipn. apply prefix_refl. }
  simpl.
  destruct (metrics_fault t).
  { simpl. apply Fed. simpl. unfold fed.
    rewrite ?Ecl, ?write_then_flush. reflexivity. }
  simpl.
  destruct (tail_fault t).
  { simpl. apply Fed. simpl. unfold fed.
    rewrite ?Ecl, ?write_then_flush. reflexivity. }
  simpl.
  destruct (_ =? 0); [destruct (_ =? 0) |]; simpl; apply Fed; simpl;
    unfold fed; rewrite ?Ecl, ?write_then_flush; reflexivity.
Qed.

(** The loop, however it ends. *)
Lemma loop_bytes (start_time : Z) (ticks : list tick) :
  forall (frame_count : Z) (s : SimulationStream),
    let s1 := snd (loop start_time ticks frame_count s) in
    prefix (piped s) (piped s1) /\
    prefix (accepted s1) (accepted s ++ List.concat (map encoded ticks)).
Proof.
  induction ticks as [| t ticks IH]; intros frame_count s; cbn zeta.
  - simpl. rewrite app_nil_r. split; apply prefix_refl.
  - cbn [loop map List.concat].
    destruct (iteration start_time t frame_count s) as [[fc' | e] s1] eqn:E.
    + pose proof E as E'. apply iteration_Ok_inv in E'.
      destruct E' as (frame & p & _ & _ & _ & _ & _ & _ & _ & Hcv & Hp & _ & _
                      & -> & ->).
      destruct (passed_feeds start_time t frame_count frame p s Hcv Hp)
        as (_ & _ & _ & P1 & B1).
      specialize (IH (frame_count + 1)
                    (passed start_time t frame_count (tobytes frame) p s)).
      cbn zeta in IH. destruct IH as (I1 & I2).
      unfold accepted in *. rewrite P1, B1, app_nil_r in I2.
      rewrite P1 in I1. split.
      * eapply prefix_trans; [apply prefix_app | exact I1].
      * rewrite <- !app_assoc in *. exact I2.
    + pose proof (iteration_bytes start_time t frame_count s) as I.
      rewrite E in I. cbn [snd] in *. destruct I as (I1 & I2).
      split; [exact I1 |]. rewrite app_assoc. apply prefix_app_r.
      exact I2.
Qed.

(** Either end of [cleanup]: the pipe keeps what it had and gets nothing
    but what was waiting. *)
Lemma stdin_close_bytes (c : closing) (p : Popen) :
  prefix (stdin_pipe p) (stdin_pipe (snd (stdin_close c p))) /\
  prefix (stdin_pipe (snd (stdin_close c p))
            ++ stdin_buffer (snd (stdin_close c p)))
    (stdin_pipe p ++ stdin_buffer p).
Proof.
  unfold stdin_close. destruct (stdin_closed p).
  { simpl. split; apply prefix_refl. }
  destruct (stdin_buffer p) as [| b0 buf] eqn:Eb, (close_fault c); simpl;
    rewrite ?app_nil_r; split;
    try apply prefix_refl; try apply prefix_app.
  apply prefix_app_l. exists (skipn (close_sent c) (b0 :: buf)).
  rewrite firstn_skipn. reflexivity.
Qed.

Lemma finally_bytes (c : closing) (pending : stream_outcome)
    (s : SimulationStream) :
  let s' := snd (finally_cleanup c pending s) in
  prefix (piped s) (piped s') /\ prefix (accepted s') (accepted s).
Proof.
  cbn zeta. rewrite finally_cases. unfold accepted, piped, buffered.
  destruct (close_outcome c s); cbn [snd cleaned aborted proc];
    destruct (proc s) as [p |]; simpl; try (split; apply prefix_refl).
  - destruct (wait_keeps (snd (stdin_close c p))) as (_ & _ & -> & ->).
    apply stdin_close_bytes.
  - apply stdin_close_bytes.
Qed.

(** The frames whose [write()] returned, however the pass and the loop
    end. *)
Lemma iteration_written (start_time : Z) (t : tick) (frame_count : Z)
    (s : SimulationStream) :
  let s1 := snd (iteration start_time t frame_count s) in
  written s1 = written s \/ written s1 = written s ++ [encoded t].
Proof.
  cbn zeta. unfold iteration, written. unfold_M.
  destruct (step_fault t).
  { destruct (step_done t); simpl; auto. }
  simpl.
  destruct (annotator s) as [an |]; [| simpl; auto].
  destruct (get_data_fault t); [simpl; auto |].
  simpl. unfold encoded.
  destruct (cvtColor (cvt_elsewhere t) (data t)) as [frame | e0];
    [| simpl; auto].
  simpl.
  destruct (proc s) as [p |] eqn:Ep; [| simpl; rewrite Ep; auto].
  destruct (stdin_closed p) eqn:Ecl; [simpl; rewrite Ep; auto |].
  destruct (write_fault t); [simpl; auto |].
  simpl. rewrite ?Ecl.
  destruct (flush_fault t); [simpl; auto |].
  simpl.
  destruct (metrics_fault t); [simpl; auto |].
  simpl.
  destruct (tail_fault t); [simpl; auto |].
  simpl.
  destruct (_ =? 0); [destruct (_ =? 0) |]; simpl; auto.
Qed.

Lemma loop_written (start_time : Z) (ticks : list tick) :
  forall (frame_count : Z) (s : SimulationStream),
    exists k, (k <= List.length ticks)%nat /\
              written (snd (loop start_time ticks frame_count s))
              = written s ++ map encoded (firstn k ticks).
Proof.
  induction ticks as [| t ticks IH]; intros frame_count s.
  - exists 0%nat. rewrite firstn_O. simpl. rewrite app_nil_r. auto.
  - cbn [loop List.length].
    pose proof (iteration_written start_time t frame_count s) as I.
    destruct (iteration start_time t frame_count s) as [[fc' | e] s1] eqn:E;
      cbn [snd] in *.
    + apply iteration_Ok_inv in E.
      destruct E as (frame & p & _ & _ & _ & _ & _ & _ & _ & Hcv & Hp & _ & _
                     & -> & ->).
      destruct (passed_feeds start_time t frame_count frame p s Hcv Hp)
        as (W1 & _).
      destruct (IH (frame_count + 1)
                  (passed start_time t frame_count (tobytes frame) p s))
        as (k & Hk & Hw).
      exists (S k). split; [lia |].
      rewrite Hw, W1, firstn_cons, <- app_assoc. reflexivity.
    + destruct I as [I | I].
      * exists 0%nat. split; [lia |]. rewrite firstn_O, I. simpl.
        rewrite app_nil_r. reflexivity.
      * exists 1%nat. split; [lia |]. rewrite firstn_cons, firstn_O, I.
        reflexivity.
Qed.

(** X1: the byte stream the encoder gets.  However a call of [stream] ends
    and whatever the environment does, the pipe keeps the bytes it had,
    and what the writer has handed on or still holds is a beginning of what
    it held before followed by the converted frames of the scripted passes,
    in order: a failing or interrupted write can leave a frame cut off, but
    no byte is out of place and nothing else is sent.  The frames whose
    [write()] returned are those of the first [k] passes.  While the loop is
    still running every frame is through, whole: the writer has handed on
    exactly what it held before followed by all the frames. *)
Theorem stream_feeds_frames_in_order (start_time : Z) (ticks : list tick)
    (c : closing) (s : SimulationStream) :
  let r := stream start_time ticks c s in
  prefix (piped s) (piped (snd r)) /\
  prefix (accepted (snd r))
    (accepted s ++ List.concat (map encoded ticks)) /\
  (exists k, (k <= List.length ticks)%nat /\
             written (snd r) = written s ++ map encoded (firstn k ticks)) /\
  (fst r = Streaming ->
   written (snd r) = written s ++ map encoded ticks /\
   accepted (snd r) = accepted s ++ List.concat (map encoded ticks) /\
   (ticks <> [] -> buffered (snd r) = [])).
Proof.
  cbn zeta. rewrite stream_cases.
  destruct (loop_bytes start_time ticks 0 (started s)) as (L1 & L2).
  change (piped (started s)) with (piped s) in L1.
  change (accepted (started s)) with (accepted s) in L2.
  destruct (loop_written start_time ticks 0 (started s)) as (k & Hk & Hw).
  change (written (started s)) with (written s) in Hw.
  pose proof (loop_feeds start_time ticks 0 (started s)) as LF.
  assert (G : forall pending s1 s2,
             s1 = snd (loop start_time ticks 0 (started s)) ->
             written s2 = written s1 -> piped s2 = piped s1 ->
             accepted s2 = accepted s1 -> pending <> Streaming ->
             let r := finally_cleanup c pending s2 in
             prefix (piped s) (piped (snd r)) /\
             prefix (accepted (snd r))
               (accepted s ++ List.concat (map encoded ticks)) /\
             (exists k, (k <= List.length ticks)%nat /\
                        written (snd r)
                        = written s ++ map encoded (firstn k ticks)) /\
             (fst r = Streaming ->
              written (snd r) = written s ++ map encoded ticks /\
              accepted (snd r)
              = accepted s ++ List.concat (map encoded ticks) /\
              (ticks <> [] -> buffered (snd r) = []))).
  { intros pending s1 s2 -> E1 E2 E3 Hpend. cbn zeta.
    destruct (finally_bytes c pending s2) as (F1 & F2).
    rewrite E2 in F1. rewrite E3 in F2.
    split; [eapply prefix_trans; eassumption |].
    split; [eapply prefix_trans; eassumption |].
    rewrite finally_cases.
    destruct (close_outcome c s2); cbn [fst snd].
    - destruct (cleaned_traffic c s2) as (-> & _).
      split; [exists k; split; [exact Hk | congruence] |].
      intros H. congruence.
    - destruct (aborted_traffic c s2) as (-> & _).
      split; [exists k; split; [exact Hk | congruence] |].
      discriminate. }
  destruct (loop start_time ticks 0 (started s)) as [[e |] s1] eqn:El;
    cbn [fst snd] in *.
  - destruct e;
      try (apply (G _ s1 s1); [reflexivity .. | discriminate]).
    apply (G _ s1 (interrupted s1)); try reflexivity. discriminate.
  - split; [exact L1 |]. split; [exact L2 |].
    split; [exists k; auto |].
    intros _. destruct (LF eq_refl) as (W & _ & _ & P & B).
    change (written (started s)) with (written s) in W.
    split; [exact W |]. split; [| exact B].
    unfold accepted. rewrite P, <- app_assoc. reflexivity.
Qed.

(** ** Timing lines *)

Lemma lines_app (f : line -> bool) (l1 l2 : list line) :
  List.length (filter f (l1 ++ l2))
  = (List.length (filter f l1) + List.length (filter f l2))%nat.
Proof. rewrite filter_app, length_app. reflexivity. Qed.

Ltac count_lines :=
  unfold logged, logged_all, step_lines, frame_lines, flushed; simpl;
  rewrite ?lines_app; simpl;
  try match goal with
      | H : proc _ = _ |- _ => rewrite ?H; simpl
      end.

(** One pass, however it ends; a pass that runs to its end has both its
    lines. *)
Lemma iteration_logged (start_time : Z) (t : tick) (frame_count : Z)
    (s : SimulationStream) :
  let r := iteration start_time t frame_count s in
  logged s (snd r) /\
  (forall fc', fst r = Ok fc' -> logged_all s (snd r) /\
     orchestrator_steps (snd r) = S (orchestrator_steps s)).
Proof.
  cbn zeta. unfold iteration. unfold_M.
  destruct (step_fault t).
  { destruct (step_done t); count_lines; split;
      try (intros; discriminate); lia. }
  simpl.
  destruct (annotator s) as [an |];
    [| count_lines; split; try (intros; discriminate); lia].
  destruct (get_data_fault t);
    [count_lines; split; try (intros; discriminate); lia |].
  simpl.
  destruct (cvtColor (cvt_elsewhere t) (data t)) as [frame | e0];
    [| count_lines; split; try (intros; discriminate); lia].
  simpl.
  destruct (proc s) as [p |] eqn:Ep;
    [| count_lines; split; try (intros; discriminate); lia].
  destruct (stdin_closed p) eqn:Ecl;
    [count_lines; split; try (intros; discriminate); lia |].
  destruct (write_fault t);
    [count_lines; split; try (intros; discriminate); lia |].
  simpl. rewrite ?Ecl.
  destruct (flush_fault t);
    [count_lines; split; try (intros; discriminate); lia |].
  simpl.
  destruct (metrics_fault t);
    [count_lines; split; try (intros; discriminate); lia |].
  simpl.
  destruct (tail_fault t);
    [count_lines; split; try (intros; discriminate); lia |].
  simpl.
  destruct (_ =? 0); [destruct (_ =? 0) |]; count_lines;
    (split; [| intros; try discriminate; split]); lia.
Qed.

Lemma loop_logged (start_time : Z) (ticks : list tick) :
  forall (frame_count : Z) (s : SimulationStream),
    let r := loop start_time ticks frame_count s in
    logged s (snd r) /\ (fst r = None -> logged_all s (snd r)).
Proof.
  induction ticks as [| t ticks IH]; intros frame_count s; cbn zeta.
  - simpl. unfold logged, logged_all. split; [| intros _]; lia.
  - cbn [loop].
    destruct (iteration_logged start_time t frame_count s) as (L & A).
    destruct (iteration start_time t frame_count s) as [[fc' | e] s1];
      cbn [fst snd] in *.
    + destruct (A fc' eq_refl) as (A1 & _).
      destruct (IH fc' s1) as (L2 & A2).
      unfold logged, logged_all in *.
      split; [lia |]. intros H. specialize (A2 H). lia.
    + split; [exact L | discriminate].
Qed.

(** X2: the timing lines and the calls.  However a call of [stream] ends,
    every line of line 138 stands for a simulation step that returned and
    every line of line 154 for a flush that returned; since the interrupt
    can surface between a call that returned and its line, one step and one
    flush may have gone without their line, and no more.  While the loop is
    still running there are as many lines of each kind as steps and
    flushes. *)
Theorem stream_logs_each_step_and_frame (start_time : Z) (ticks : list tick)
    (c : closing) (s : SimulationStream) :
  let r := stream start_time ticks c s in
  logged s (snd r) /\ (fst r = Streaming -> logged_all s (snd r)).
Proof.
  cbn zeta. rewrite stream_cases.
  destruct (loop_logged start_time ticks 0 (started s)) as (L & A).
  assert (St : logged_all s (started s)).
  { count_lines. lia. }
  assert (Fin : forall pending s1,
             pending <> Streaming ->
             logged_all s1 (snd (finally_cleanup c pending s1)) /\
             fst (finally_cleanup c pending s1) <> Streaming).
  { intros pending s1 Hp. rewrite finally_cases.
    destruct (close_outcome c s1); cbn [fst snd];
      (split; [| congruence]); count_lines;
      destruct (proc s1) as [p |]; simpl;
      try (destruct (wait_keeps (snd (stdin_close c p))) as (_ & -> & _));
      try (destruct (stdin_close_keeps c p) as (_ & -> & _)); lia. }
  destruct (loop start_time ticks 0 (started s)) as [[e |] s1];
    cbn [fst snd] in *.
  - assert (G : forall pending s2,
               pending <> Streaming -> logged_all s1 s2 ->
               logged s (snd (finally_cleanup c pending s2)) /\
               (fst (finally_cleanup c pending s2) = Streaming ->
                logged_all s (snd (finally_cleanup c pending s2)))).
    { intros pending s2 Hp H12.
      destruct (Fin pending s2 Hp) as (F1 & F2).
      split; [| congruence].
      unfold logged, logged_all in *. lia. }
    destruct e; try (apply G; [discriminate | count_lines; lia]).
  - split; [| intros _; specialize (A eq_refl)];
      unfold logged, logged_all in *; lia.
Qed.

(** ** Every exit of [stream] *)

Lemma cleaned_up_released (s s' : SimulationStream) :
  cleaned_up s s' -> released s'.
Proof.
  intros (Hp & _ & Hc & _). split; [| lia].
  intros p' Ep'. destruct (proc s) as [p |]; [| congruence].
  destruct Hp as (p'' & Ep'' & (_ & ? & _ & ? & _)).
  assert (p'' = p') by congruence. subst. auto.
Qed.





(** ** Why [stream] ends *)

Lemma interrupt_delivered_raises (start_time : Z) (t : tick) (frame_count : Z)
    (s : SimulationStream) :
  interrupt_delivered t s ->
  fst (iteration start_time t frame_count s) = Raise KeyboardInterrupt.
Proof.
  unfold iteration. unfold_M.
  intros [Hst | (Hst & Ha & H)]; rewrite Hst.
  { destruct (step_done t); reflexivity. }
  simpl. destruct (annotator s) as [an |] eqn:Ea; [| congruence].
  destruct H as [Hg | (Hg & H)]; rewrite Hg; [reflexivity |]. simpl.
  destruct H as [Hcv | ((frame & Hcv) & p & Hp & Hcl & H)]; rewrite Hcv;
    [reflexivity |].
  simpl. rewrite Hp, Hcl.
  destruct H as [Hw | (Hw & H)]; rewrite Hw; [reflexivity |].
  simpl. rewrite ?Hcl.
  destruct H as [Hf | (Hf & H)]; rewrite Hf; [reflexivity |]. simpl.
  destruct H as [Hm | (Hm & Ht)]; rewrite Hm; [reflexivity |]. simpl.
  rewrite Ht. reflexivity.
Qed.



(** ** Streaming on a closed pipe *)

Lemma iteration_closed_pipe (start_time : Z) (t : tick) (frame_count : Z)
    (s : SimulationStream) (p : Popen) (frame : ndarray) :
  step_fault t = None -> get_data_fault t = None -> annotator s <> None ->
  cvtColor (cvt_elsewhere t) (data t) = Ok frame ->
  proc s = Some p -> stdin_closed p = true ->
  iteration start_time t frame_count s
  = (Raise (ValueError "write to closed file"),
     set_stdout (stdout s ++ [Simulation_step_took (step_end t - step_start t)])
       (set_orchestrator_steps (S (orchestrator_steps s)) s)).
Proof.
  intros Hst Hg Ha Hcv Hp Hcl.
  unfold iteration. unfold_M.
  rewrite Hst. simpl.
  destruct (annotator s) as [an |] eqn:Ea; [| congruence].
  rewrite Hg. simpl. rewrite Hcv. simpl. rewrite Hp, Hcl. reflexivity.
Qed.

Lemma stdin_close_closed (c : closing) (p : Popen) :
  stdin_closed (snd (stdin_close c p)) = true.
Proof.
  unfold stdin_close. destruct (stdin_closed p) eqn:E; [exact E |].
  destruct (stdin_buffer p), (close_fault c); reflexivity.
Qed.

(** X5: [stream] cannot be resumed after [cleanup].  On an instance whose
    encoder was launched, a [stream] that follows a [cleanup], however that
    ended, steps the simulation once, converts the frame, finds the input
    channel closed and raises [ValueError] without having written or sent
    anything; its own [cleanup] closes no descriptor, runs to its end and
    calls the simulator's [close()] once more: twice in all when the first
    [cleanup] ran to its end, once when it was cut short. *)
Theorem stream_after_cleanup_is_fatal (start_time : Z) (t : tick)
    (post : list tick) (c1 c2 : closing) (s : SimulationStream) (p : Popen)
    (frame : ndarray) :
  proc s = Some p -> annotator s <> None ->
  step_fault t = None -> get_data_fault t = None ->
  cvtColor (cvt_elsewhere t) (data t) = Ok frame ->
  let s1 := snd (cleanup c1 s) in
  let r := stream start_time (t :: post) c2 s1 in
  fst r = Propagated (ValueError "write to closed file") /\
  written (snd r) = written s /\
  piped (snd r) = piped s1 /\
  orchestrator_steps (snd r) = S (orchestrator_steps s) /\
  pipe_closes (snd r) = pipe_closes s1 /\
  cleaned_up s1 (snd r) /\
  close_calls (simulator (snd r))
  = match close_outcome c1 s with
    | Ok _ => (close_calls (simulator s) + 2)%nat
    | Raise _ => (close_calls (simulator s) + 1)%nat
    end.
Proof.
  intros Hp Ha Hst Hg Hcv. cbn zeta.
  rewrite stream_cases. cbn [loop].
  set (s1 := snd (cleanup c1 s)).
  assert (H1 : exists p1, proc s1 = Some p1 /\ stdin_closed p1 = true /\
                          stdin_received p1 = stdin_received p /\
                          annotator s1 = annotator s /\
                          orchestrator_steps s1 = orchestrator_steps s /\
                          close_calls (simulator s1)
                          = match close_outcome c1 s with
                            | Ok _ => S (close_calls (simulator s))
                            | Raise _ => close_calls (simulator s)
                            end).
  { subst s1. rewrite cleanup_cases.
    destruct (close_outcome c1 s); cbn [snd cleaned aborted proc annotator
                                        orchestrator_steps simulator];
      rewrite Hp; simpl; eexists; (split; [reflexivity |]).
    - destruct (wait_keeps (snd (stdin_close c1 p))) as (-> & _).
      destruct (stdin_close_keeps c1 p) as (-> & _).
      destruct (wait_stdin_close_wound_up c1 p) as (_ & -> & _). auto.
    - destruct (stdin_close_keeps c1 p) as (-> & _).
      rewrite stdin_close_closed. auto. }
  destruct H1 as (p1 & Hp1 & Hcl1 & Hr1 & Ha1 & Ho1 & Hc1).
  rewrite (iteration_closed_pipe start_time t 0 (started s1) p1 frame);
    try assumption; [| simpl; congruence].
  set (s2 := set_stdout _ _).
  assert (Hco : close_outcome c2 s2 = Ok tt).
  { unfold close_outcome, stdin_close. subst s2. simpl. rewrite Hp1, Hcl1.
    reflexivity. }
  rewrite finally_cases, Hco. cbn [fst snd].
  assert (K : same_setup s1 s2).
  { subst s2. unfold same_setup, config. simpl. repeat split.
    rewrite Hp1. exists p1. split; [reflexivity | apply same_child_refl]. }
  split; [reflexivity |].
  split.
  { destruct (cleaned_traffic c2 s2) as (-> & _).
    unfold written. subst s2. simpl. rewrite Hp1, Hp. exact Hr1. }
  split.
  { unfold piped. subst s2. simpl. rewrite Hp1. simpl.
    destruct (wait_keeps (snd (stdin_close c2 p1))) as (_ & _ & -> & _).
    unfold stdin_close. rewrite Hcl1. reflexivity. }
  split.
  { subst s2. simpl. congruence. }
  split.
  { unfold pipe_closes. subst s2. simpl. rewrite Hp1. simpl.
    destruct (wait_stdin_close_wound_up c2 p1) as (_ & _ & -> & _).
    rewrite Hcl1. reflexivity. }
  split.
  { apply (cleaned_up_after s1 s2); [exact K | apply cleaned_cleaned_up]. }
  subst s2. simpl. rewrite Hc1. destruct (close_outcome c1 s); lia.
Qed.

(** ** Throughput lines of the passes that ran to their end *)

(** X14: in a run of the loop that completes N passes (counting from zero,
    as [stream] does), a throughput line is printed in exactly the passes
    whose frame count is a positive multiple of 100, it carries that count
    and the time elapsed since the loop started, and floor(N/100) such
    lines are printed in all. *)
Theorem loop_reports_every_100_frames (start_time : Z) (ticks : list tick)
    (s : SimulationStream) :
  fst (loop start_time ticks 0 s) = None ->
  let s' := snd (loop start_time ticks 0 s) in
  reports s' = reports s ++ due start_time 0 ticks /\
  Forall (fun l => exists k elapsed,
            l = Processed_frames k elapsed /\ k mod 100 = 0 /\
            0 < k <= Z.of_nat (List.length ticks) /\ elapsed <> 0)
    (due start_time 0 ticks) /\
  Z.of_nat (List.length (reports s'))
  = Z.of_nat (List.length (reports s)) + Z.of_nat (List.length ticks) / 100.
Proof.
  intros H s'. pose proof (loop_reports start_time ticks 0 s H) as R.
  fold s' in R. repeat split.
  - exact R.
  - clear R s'.
    assert (G : forall ts fc s0,
               fst (loop start_time ts fc s0) = None ->
               Forall (fun l => exists k elapsed,
                         l = Processed_frames k elapsed /\ k mod 100 = 0 /\
                         fc < k <= fc + Z.of_nat (List.length ts) /\
                         elapsed <> 0)
                 (due start_time fc ts)).
    { induction ts as [| t ts IH]; intros fc s0 Hl; [constructor |].
      cbn [loop] in Hl.
      destruct (iteration start_time t fc s0) as [[fc' | e] s1] eqn:E;
        [| discriminate].
      apply iteration_Ok_inv in E.
      destruct E as (frame & p & _ & _ & _ & _ & _ & _ & _ & _ & _ & _ & Hz
                     & -> & ->).
      specialize (IH _ _ Hl).
      assert (IH' : Forall (fun l => exists k elapsed,
                              l = Processed_frames k elapsed /\ k mod 100 = 0 /\
                              fc < k <= fc + Z.of_nat (List.length (t :: ts)) /\
                              elapsed <> 0)
                      (due start_time (fc + 1) ts)).
      { revert IH. apply Forall_impl. intros l (k & el & ? & ? & ? & ?).
        exists k, el. cbn [List.length]. repeat split; auto; lia. }
      unfold due in *. cbn [numbered filter fst].
      destruct ((fc + 1) mod 100 =? 0) eqn:Em; [| exact IH'].
      cbn [map fst snd]. constructor; [| exact IH'].
      apply Z.eqb_eq in Em.
      exists (fc + 1), (report_time t - start_time). cbn [List.length].
      repeat split; auto; lia. }
    specialize (G ticks 0 s H). revert G. apply Forall_impl.
    intros l (k & el & ? & ? & ? & ?). exists k, el.
    repeat split; auto; lia.
  - rewrite R, length_app, Nat2Z.inj_add, due_length.
    rewrite Z.add_0_l. change (0 / 100) with 0. lia.
Qed.

(** ** Exits that end in a complete cleanup *)

(** Nothing is waiting when a pass starts after passes that ran to their
    end, on an instance that had nothing waiting. *)
Lemma loop_buffer_empty (start_time : Z) (pre : list tick)
    (s : SimulationStream) :
  buffered s = [] ->
  fst (loop start_time pre 0 (started s)) = None ->
  buffered (snd (loop start_time pre 0 (started s))) = [].
Proof.
  intros Hb Hpre. destruct pre as [| t pre]; [exact Hb |].
  destruct (loop_feeds start_time (t :: pre) 0 (started s) Hpre)
    as (_ & _ & _ & _ & B).
  apply B. discriminate.
Qed.

(** X15: an interrupt with the encoder still reading.  When, after any
    number of passes that ran to their end, the interrupt surfaces in a
    pass, at whatever point of it, and the encoder takes what is left in
    the buffer when the pipe is closed, the except clause prints its line,
    [cleanup] runs from its first line to its last and [stream] returns
    without raising. *)
Theorem interrupt_ends_stream_normally (start_time : Z)
    (pre post : list tick) (t : tick) (c : closing) (s : SimulationStream) :
  fst (loop start_time pre 0 (started s)) = None ->
  interrupt_delivered t (snd (loop start_time pre 0 (started s))) ->
  close_fault c = None ->
  let r := stream start_time (pre ++ t :: post) c s in
  fst r = Returned /\
  In Received_keyboard_interrupt (stdout (snd r)) /\
  cleaned_up s (snd r) /\ released (snd r).
Proof.
  intros Hpre Hi Hc. cbn zeta. rewrite stream_cases.
  pose proof (same_setup_loop_started start_time pre s) as K.
  apply (interrupt_delivered_raises start_time t (Z.of_nat (List.length pre)))
    in Hi.
  rewrite (loop_raises start_time pre post t (started s) _ Hpre Hi).
  pose proof (keeps_iteration start_time t (Z.of_nat (List.length pre))
                (snd (loop start_time pre 0 (started s)))) as K1.
  set (s1 := snd (iteration _ _ _ _)) in *.
  assert (Ki : same_setup s (interrupted s1)).
  { eapply same_setup_trans; [| apply same_setup_interrupted].
    eapply same_setup_trans; eassumption. }
  rewrite finally_cases.
  rewrite (close_outcome_Ok c (interrupted s1)) by (right; exact Hc).
  cbn [fst snd].
  assert (C : cleaned_up s (cleaned c (interrupted s1)))
    by (apply (cleaned_up_after s (interrupted s1) _ Ki), cleaned_cleaned_up).
  split; [reflexivity |].
  split.
  { simpl. apply in_or_app. left. apply in_or_app. right. left. reflexivity. }
  split; [exact C |]. apply (cleaned_up_released _ _ C).
Qed.

(** A [cleanup] that runs to its end loses none of the bytes the writer
    holds. *)
Lemma cleaned_accepted (c : closing) (s : SimulationStream) :
  close_outcome c s = Ok tt -> accepted (cleaned c s) = accepted s.
Proof.
  unfold close_outcome, accepted, piped, buffered. simpl.
  destruct (proc s) as [p |]; [| reflexivity]. simpl.
  destruct (wait_keeps (snd (stdin_close c p))) as (_ & _ & -> & ->).
  unfold stdin_close. destruct (stdin_closed p); [reflexivity |].
  destruct (stdin_buffer p), (close_fault c); simpl; intros H;
    try discriminate; rewrite ?app_nil_r; reflexivity.
Qed.

Lemma iteration_step_fails (start_time : Z) (t : tick) (frame_count : Z)
    (s : SimulationStream) (e : exn) :
  step_fault t = Some e ->
  fst (iteration start_time t frame_count s) = Raise e /\
  proc (snd (iteration start_time t frame_count s)) = proc s.
Proof.
  intros H. unfold iteration. unfold_M. rewrite H.
  destruct (step_done t); simpl; auto.
Qed.

(** X18: an interrupt between two frames.  When, on an instance with
    nothing waiting in the buffer and after any number of passes that ran
    to their end, the interrupt surfaces in the simulation step, nothing is
    waiting when the pipe is closed: whatever has become of the encoder,
    [cleanup] runs from its first line to its last and [stream] returns;
    the writer has handed on the frames of the passes before, whole, and
    nothing else. *)
Theorem interrupt_between_frames_returns (start_time : Z)
    (pre post : list tick) (t : tick) (c : closing) (s : SimulationStream) :
  buffered s = [] ->
  fst (loop start_time pre 0 (started s)) = None ->
  step_fault t = Some KeyboardInterrupt ->
  let r := stream start_time (pre ++ t :: post) c s in
  fst r = Returned /\
  In Received_keyboard_interrupt (stdout (snd r)) /\
  cleaned_up s (snd r) /\ released (snd r) /\
  written (snd r) = written s ++ map encoded pre /\
  accepted (snd r) = piped s ++ List.concat (map encoded pre).
Proof.
  intros Hb Hpre Hst. cbn zeta. rewrite stream_cases.
  pose proof (same_setup_loop_started start_time pre s) as K.
  pose proof (loop_buffer_empty start_time pre s Hb Hpre) as B0.
  destruct (loop_feeds start_time pre 0 (started s) Hpre)
    as (W & _ & _ & P & _).
  change (written (started s)) with (written s) in W.
  change (piped (started s)) with (piped s) in P.
  change (buffered (started s)) with (buffered s) in P.
  rewrite Hb in P. cbn [app] in P.
  destruct (iteration_step_fails start_time t (Z.of_nat (List.length pre))
              (snd (loop start_time pre 0 (started s))) _ Hst) as (Hi & Hp).
  rewrite (loop_raises start_time pre post t (started s) _ Hpre Hi).
  pose proof (keeps_iteration start_time t (Z.of_nat (List.length pre))
                (snd (loop start_time pre 0 (started s)))) as K1.
  set (s0 := snd (loop start_time pre 0 (started s))) in *.
  set (s1 := snd (iteration _ _ _ _)) in *.
  assert (Ki : same_setup s (interrupted s1)).
  { eapply same_setup_trans; [| apply same_setup_interrupted].
    eapply same_setup_trans; eassumption. }
  assert (Hco : close_outcome c (interrupted s1) = Ok tt).
  { apply close_outcome_Ok. left. unfold buffered in *. simpl.
    rewrite Hp. exact B0. }
  rewrite finally_cases, Hco. cbn [fst snd].
  assert (C : cleaned_up s (cleaned c (interrupted s1)))
    by (apply (cleaned_up_after s (interrupted s1) _ Ki), cleaned_cleaned_up).
  split; [reflexivity |].
  split.
  { simpl. apply in_or_app. left. apply in_or_app. right. left. reflexivity. }
  split; [exact C |]. split; [apply (cleaned_up_released _ _ C) |].
  split.
  { destruct (cleaned_traffic c (interrupted s1)) as (-> & _).
    unfold written in *. simpl. rewrite Hp. exact W. }
  rewrite (cleaned_accepted c _ Hco).
  unfold accepted, piped, buffered in *. simpl. rewrite Hp. exact P.
Qed.

(** ** A write that fails outright *)

Lemma iteration_write_fails (start_time : Z) (t : tick) (frame_count : Z)
    (s : SimulationStream) (frame : ndarray) (p : Popen) (e : exn) :
  step_fault t = None -> annotator s <> None -> get_data_fault t = None ->
  cvtColor (cvt_elsewhere t) (data t) = Ok frame ->
  proc s = Some p -> stdin_closed p = false ->
  write_fault t = Some e ->
  let r := iteration start_time t frame_count s in
  fst r = Raise e /\
  written (snd r) = written s /\
  buffered (snd r) = skipn (write_sent t) (buffered s) /\
  piped (snd r)
  = piped s ++ firstn (write_sent t) (buffered s ++ tobytes frame).
Proof.
  intros Hst Ha Hg Hcv Hp Hcl Hw.
  unfold iteration, written, buffered, piped. unfold_M.
  rewrite Hst. simpl.
  destruct (annotator s) as [an |] eqn:Ea; [| congruence].
  rewrite Hg. simpl. rewrite Hcv. simpl.
  rewrite Hp, Hcl, Hw. simpl. auto.
Qed.

(** X16: a write that fails outright.  When, after passes that ran to their
    end on an instance with nothing waiting, [write()] itself raises (the
    frame is larger than the buffer and the pipe is broken), the frame does
    not count as written, the part of it that went through is in the pipe
    and nothing is left in the buffer: [cleanup] runs from its first line
    to its last, whatever has become of the encoder, and [stream] then
    raises the error of the write. *)
Theorem write_failure_is_fatal_after_cleanup (start_time : Z)
    (pre post : list tick) (t : tick) (c : closing) (s : SimulationStream)
    (frame : ndarray) (e : exn) :
  ready s -> buffered s = [] ->
  fst (loop start_time pre 0 (started s)) = None ->
  step_fault t = None -> get_data_fault t = None ->
  cvtColor (cvt_elsewhere t) (data t) = Ok frame ->
  write_fault t = Some e -> e <> KeyboardInterrupt ->
  let r := stream start_time (pre ++ t :: post) c s in
  fst r = Propagated e /\
  cleaned_up s (snd r) /\ released (snd r) /\
  written (snd r) = written s ++ map encoded pre /\
  piped (snd r)
  = piped s ++ List.concat (map encoded pre)
      ++ firstn (write_sent t) (tobytes frame) /\
  buffered (snd r) = [].
Proof.
  intros Hr Hb Hpre Hst Hg Hcv Hw He. cbn zeta. rewrite stream_cases.
  pose proof (same_setup_loop_started start_time pre s) as K.
  pose proof (loop_buffer_empty start_time pre s Hb Hpre) as B0.
  destruct (loop_feeds start_time pre 0 (started s) Hpre)
    as (W & _ & _ & P & _).
  change (written (started s)) with (written s) in W.
  change (piped (started s)) with (piped s) in P.
  change (buffered (started s)) with (buffered s) in P.
  rewrite Hb in P. cbn [app] in P. rewrite B0, app_nil_r in P.
  destruct (same_setup_ready _ _ K Hr) as (Ha & p & Hp & Hcl).
  destruct (iteration_write_fails start_time t (Z.of_nat (List.length pre)) _
              frame p e Hst Ha Hg Hcv Hp Hcl Hw) as (Hi & Hwr & Hbuf & Hpipe).
  rewrite (loop_raises start_time pre post t (started s) _ Hpre Hi).
  pose proof (keeps_iteration start_time t (Z.of_nat (List.length pre))
                (snd (loop start_time pre 0 (started s)))) as K1.
  set (s0 := snd (loop start_time pre 0 (started s))) in *.
  set (s1 := snd (iteration _ _ _ _)) in *.
  rewrite B0 in Hbuf, Hpipe. cbn [app] in Hpipe.
  assert (Hbuf' : buffered s1 = []).
  { rewrite Hbuf. apply skipn_nil. }
  assert (K2 : same_setup s s1) by (eapply same_setup_trans; eassumption).
  assert (Hco : close_outcome c s1 = Ok tt).
  { apply close_outcome_Ok. left. exact Hbuf'. }
  assert (E : finally_cleanup c (Propagated e) s1
              = (Propagated e, cleaned c s1)).
  { rewrite finally_cases, Hco. reflexivity. }
  assert (G : match e with
              | KeyboardInterrupt => finally_cleanup c Returned (interrupted s1)
              | _ => finally_cleanup c (Propagated e) s1
              end = (Propagated e, cleaned c s1)).
  { destruct e; try exact E. congruence. }
  rewrite G. cbn [fst snd].
  assert (C : cleaned_up s (cleaned c s1))
    by (apply (cleaned_up_after s s1 _ K2), cleaned_cleaned_up).
  pose proof (cleaned_accepted c s1 Hco) as A.
  assert (Bc : buffered (cleaned c s1) = []).
  { destruct (same_setup_ready _ _ K2 Hr) as (_ & p1 & Hp1 & Hcl1).
    destruct C as (Cp & _). destruct Hr as (_ & p0 & Hp0 & Hcl0).
    rewrite Hp0 in Cp. destruct Cp as (p' & Hp' & (_ & _ & _ & _ & _ & Hbe)).
    unfold buffered. rewrite Hp'. apply Hbe. exact Hcl0. }
  split; [reflexivity |]. split; [exact C |].
  split; [apply (cleaned_up_released _ _ C) |].
  split.
  { destruct (cleaned_traffic c s1) as (-> & _). congruence. }
  split; [| exact Bc].
  unfold accepted in A. rewrite Bc, Hbuf', !app_nil_r in A.
  rewrite A, Hpipe, P, <- app_assoc. reflexivity.
Qed.

(** ** After a cleanup that was cut short *)

(** X17: a second [cleanup] finishes what the first left.  When the
    [close()] of line 171 raises, [cleanup] raises with the channel closed,
    the child not waited for and the simulator open.  A second call finds
    the channel closed, so its [close()] does nothing and cannot fail: it
    waits for the child, closes the simulator and returns; in all the
    descriptor was closed once, the child reaped once unless it had been
    before, and the simulator closed once. *)
Theorem cleanup_after_cut_short (c1 c2 : closing) (s : SimulationStream)
    (e : exn) :
  close_outcome c1 s = Raise e ->
  let s1 := snd (cleanup c1 s) in
  let s2 := snd (cleanup c2 s1) in
  fst (cleanup c1 s) = Raise e /\ cut_short s s1 /\
  fst (cleanup c2 s1) = Ok tt /\ cleaned_up s1 s2 /\ released s2 /\
  pipe_closes s1 = S (pipe_closes s) /\ pipe_closes s2 = S (pipe_closes s) /\
  child_reaps s1 = child_reaps s /\
  close_calls (simulator s2) = S (close_calls (simulator s)) /\
  written s2 = written s.
Proof.
  intros H1. cbn zeta.
  pose proof (close_outcome_closed c1 c2 s) as H2.
  rewrite (cleanup_cases c2), H2. rewrite (cleanup_cases c1), H1 in *.
  cbn [fst snd].
  pose proof (aborted_cut_short c1 s e H1) as C1.
  pose proof (cleaned_cleaned_up c2 (aborted c1 s)) as C2.
  split; [reflexivity |]. split; [exact C1 |]. split; [reflexivity |].
  split; [exact C2 |]. split; [apply (cleaned_up_released _ _ C2) |].
  destruct C1 as ((p & p1 & Hp & Hp1 & _ & Hcl & Hcl1 & Hfd & Hwt & Hrp)
                  & Hsim & _).
  destruct C2 as (Cp & _ & Hcc & _). rewrite Hp1 in Cp.
  destruct Cp as (p2 & Hp2 & (_ & _ & Hfd2 & _)).
  unfold pipe_closes, child_reaps. rewrite Hp, Hp1, Hp2.
  rewrite Hfd2, Hcl1. simpl.
  split; [exact Hfd |]. split; [exact Hfd |]. split; [exact Hrp |].
  split; [first [reflexivity | rewrite Hcc, Hsim; reflexivity] |].
  destruct (cleaned_traffic c2 (aborted c1 s)) as (-> & _).
  destruct (aborted_traffic c1 s) as (-> & _). reflexivity.
Qed.

(** ** Construction, step by step *)

(** X7: a scene file that cannot be opened.  When a non-empty [usd_path] is
    given and the simulator reports no stage after [open_stage], the
    constructor raises the scene error of line 84, whose message carries the
    resolved path, before the camera is looked up: no render product, no
    encoder and no annotator exist, and the simulator is not closed. *)
Theorem scene_load_failure_acquires_nothing (env : setup_env) (sim : Simulator)
    (w h f : Z) (cam : string) (ann : AnnotatorType) (tr : TransportType)
    (url path : string) :
  path <> "" -> stage_after_open env = None ->
  let r := __init__ env sim w h f cam ann tr url (Some path) in
  fst r = Raise (RuntimeError ("Failed to load stage: " ++ resolve env path)%string) /\
  stage (snd r) = None /\ render_product (snd r) = None /\
  proc (snd r) = None /\ annotator (snd r) = None /\
  close_calls (simulator (snd r)) = close_calls sim.
Proof.
  intros Hp Hs. unfold_setup.
  destruct (String.eqb_spec path ""); [contradiction |].
  simpl. rewrite Hs. simpl. auto 10.
Qed.

Lemma scene_load_failure_acquires_nothing_witness :
  fst (__init__ no_scene_env demo_simulator 2 1 30 "/World/cam" rgb tcp
         "rtsp://mediamtx:8554/stream" (Some "scene.usd"))
  = Raise (RuntimeError "Failed to load stage: /abs/scene.usd").
Proof.
  destruct (scene_load_failure_acquires_nothing no_scene_env demo_simulator
              2 1 30 "/World/cam" rgb tcp "rtsp://mediamtx:8554/stream"
              "scene.usd") as (E & _).
  - discriminate.
  - reflexivity.
  - exact E.
Defined.

(** X8: no scene at all.  When no scene file is given ([None] or the empty
    string) and the simulator has no active stage, the constructor fails in
    the camera lookup with the [AttributeError] of calling [GetPrimAtPath]
    on [None], not with the scene or the camera error, and nothing has been
    acquired. *)
Theorem no_active_stage_is_an_attribute_error (env : setup_env)
    (sim : Simulator) (w h f : Z) (cam : string) (ann : AnnotatorType)
    (tr : TransportType) (url : string) (usd_path : option string) :
  truthy usd_path = false -> active_stage sim = None ->
  let r := __init__ env sim w h f cam ann tr url usd_path in
  fst r = Raise (AttributeError "GetPrimAtPath") /\
  simulator (snd r) = sim /\
  stage (snd r) = None /\ render_product (snd r) = None /\
  proc (snd r) = None /\ annotator (snd r) = None.
Proof.
  intros Ht Hs. unfold_setup.
  destruct usd_path as [p |]; [destruct (String.eqb p ""); [| discriminate] |];
    simpl; rewrite Hs; simpl; destruct sim; simpl in *; subst; auto 10.
Qed.

Lemma no_active_stage_is_an_attribute_error_witness :
  fst (__init__ demo_env (mkSimulator None 0) 2 1 30 "/World/cam" rgb tcp
         "rtsp://mediamtx:8554/stream" (Some ""))
  = Raise (AttributeError "GetPrimAtPath").
Proof.
  destruct (no_active_stage_is_an_attribute_error demo_env (mkSimulator None 0)
              2 1 30 "/World/cam" rgb tcp "rtsp://mediamtx:8554/stream"
              (Some "")) as (E & _).
  - reflexivity.
  - reflexivity.
  - exact E.
Defined.

(** X9: an encoder that cannot be started.  When [subprocess.Popen] raises
    [e], with the camera found and the render product created, the
    constructor raises [e]; the render product exists, the [proc] attribute
    does not.  A [cleanup] of that instance takes the [hasattr] branch that
    skips the encoder: it raises nothing, closes no pipe, waits for no
    child, and closes the simulator once. *)
Theorem launch_failure_then_cleanup (env : setup_env) (sim : Simulator)
    (w h f : Z) (cam : string) (ann : AnnotatorType) (tr : TransportType)
    (url : string) (usd_path : option string) (stg : Stage) (e : exn)
    (how : closing) :
  scene_seen env sim usd_path = Some stg -> GetPrimAtPath stg cam = true ->
  render_product_fault env = None -> popen_fault env = Some e ->
  let r := __init__ env sim w h f cam ann tr url usd_path in
  let c := cleanup how (snd r) in
  fst r = Raise e /\
  render_product (snd r) = Some (mkRenderProduct cam (w, h)) /\
  proc (snd r) = None /\ annotator (snd r) = None /\
  fst c = Ok tt /\ proc (snd c) = None /\
  pipe_closes (snd c) = 0%nat /\ child_reaps (snd c) = 0%nat /\
  close_calls (simulator (snd c)) = S (close_calls sim).
Proof.
  intros Hs Hc Hr Hp. cbn zeta.
  assert (I : fst (__init__ env sim w h f cam ann tr url usd_path) = Raise e /\
              render_product (snd (__init__ env sim w h f cam ann tr url usd_path))
              = Some (mkRenderProduct cam (w, h)) /\
              proc (snd (__init__ env sim w h f cam ann tr url usd_path)) = None /\
              annotator (snd (__init__ env sim w h f cam ann tr url usd_path))
              = None /\
              close_calls
                (simulator (snd (__init__ env sim w h f cam ann tr url usd_path)))
              = close_calls sim).
  { unfold_setup. rewrite Hr, Hp.
    destruct usd_path as [p |]; [destruct (String.eqb p "") |]; simpl in *.
    all: rewrite Hs; simpl; rewrite Hc; simpl; auto 10. }
  destruct I as (I1 & I2 & I3 & I4 & I5).
  set (s := snd (__init__ env sim w h f cam ann tr url usd_path)) in *.
  assert (Hco : close_outcome how s = Ok tt).
  { unfold close_outcome. rewrite I3. reflexivity. }
  rewrite cleanup_cases, Hco. cbn [fst snd].
  unfold pipe_closes, child_reaps. simpl. rewrite I3, I5. simpl. auto 10.
Qed.

Lemma launch_failure_then_cleanup_witness :
  fst (__init__ no_ffmpeg_env demo_simulator 2 1 30 "/World/cam" rgb tcp
         "rtsp://mediamtx:8554/stream" None)
  = Raise (ForeignError "FileNotFoundError") /\
  close_calls
    (simulator
       (snd (cleanup encoder_gone
               (snd (__init__ no_ffmpeg_env demo_simulator 2 1 30 "/World/cam"
                       rgb tcp "rtsp://mediamtx:8554/stream" None)))))
  = 1%nat.
Proof.
  destruct (launch_failure_then_cleanup no_ffmpeg_env demo_simulator 2 1 30
              "/World/cam" rgb tcp "rtsp://mediamtx:8554/stream" None
              ["/World/cam"] (ForeignError "FileNotFoundError") encoder_gone)
    as (E & _ & _ & _ & _ & _ & _ & _ & C).
  - reflexivity.
  - reflexivity.
  - reflexivity.
  - reflexivity.
  - split; [exact E | exact C].
Defined.

(** X10: the constructor acquires in a fixed order and does nothing else.
    However a construction ends, the configuration is the one given, the
    simulator has not been closed, nothing has been printed and no
    simulation step taken; an annotator exists only if the encoder was
    launched, the encoder only if the render product was created, the render
    product only if a stage was found; and an encoder that was launched is
    still untouched: started with the command line of the configuration,
    input channel open and empty, not waited for. *)
Theorem construction_acquires_in_order (env : setup_env) (sim : Simulator)
    (w h f : Z) (cam : string) (ann : AnnotatorType) (tr : TransportType)
    (url : string) (usd_path : option string) :
  let r := __init__ env sim w h f cam ann tr url usd_path in
  config (snd r) = mkStreamConfig w h f cam ann tr url /\
  close_calls (simulator (snd r)) = close_calls sim /\
  stdout (snd r) = [] /\ orchestrator_steps (snd r) = 0%nat /\
  (annotator (snd r) <> None -> proc (snd r) <> None) /\
  (proc (snd r) <> None -> render_product (snd r) <> None) /\
  (render_product (snd r) <> None -> stage (snd r) <> None) /\
  (forall p, proc (snd r) = Some p -> p = subprocess_Popen (command (snd r))).
Proof.
  unfold command, config. unfold_setup.
  destruct usd_path as [p |]; [destruct (String.eqb p "") |]; simpl.
  all: match goal with
       | |- context [match ?x with Some _ => _ | None => _ end] =>
           destruct x as [stg |] eqn:Es; simpl
       end.
  all: try destruct (GetPrimAtPath stg cam) eqn:Ecam; simpl.
  all: try destruct (render_product_fault env); simpl.
  all: try destruct (popen_fault env); simpl.
  all: try destruct (get_annotator_fault env); simpl.
  all: try destruct (attach_fault env); simpl.
  all: repeat split; try congruence; try discriminate.
  all: intros p0 H; injection H as <-; reflexivity.
Qed.

(** X11: the only construction failures that leave an encoder behind are
    those of the annotator.  When the constructor raises [e] and the [proc]
    attribute exists, then [e] came from the annotator registry, and no
    annotator was assigned, or from [attach], and the annotator was assigned
    but is attached to nothing; in both cases the encoder is running: its
    input channel is open and it has not been waited for. *)
Theorem encoder_left_behind_only_by_annotator_failure (env : setup_env)
    (sim : Simulator) (w h f : Z) (cam : string) (ann : AnnotatorType)
    (tr : TransportType) (url : string) (usd_path : option string)
    (e : exn) (p : Popen) :
  fst (__init__ env sim w h f cam ann tr url usd_path) = Raise e ->
  proc (snd (__init__ env sim w h f cam ann tr url usd_path)) = Some p ->
  let self := snd (__init__ env sim w h f cam ann tr url usd_path) in
  ((get_annotator_fault env = Some e /\ annotator self = None) \/
   (get_annotator_fault env = None /\ attach_fault env = Some e /\
    annotator self = Some (mkAnnotator ann None))) /\
  stdin_closed p = false /\ waited p = false /\ ~ released self.
Proof.
  unfold released. unfold_setup.
  destruct usd_path as [p0 |]; [destruct (String.eqb p0 "") |]; simpl.
  all: match goal with
       | |- context [match ?x with Some _ => _ | None => _ end] =>
           destruct x as [stg |] eqn:Es; simpl; [| intros _ H; discriminate H]
       end.
  all: destruct (GetPrimAtPath stg cam) eqn:Ecam; simpl;
         [| intros _ H; discriminate H].
  all: destruct (render_product_fault env); simpl;
         [intros _ H; discriminate H |].
  all: destruct (popen_fault env); simpl; [intros _ H; discriminate H |].
  all: destruct (get_annotator_fault env) as [e1 |]; simpl;
         [| destruct (attach_fault env) as [e2 |]; simpl;
            [| intros H; discriminate H]].
  all: intros He Hp; injection He as <-; injection Hp as <-; simpl.
  all: split; [auto |]; split; [reflexivity |]; split; [reflexivity |].
  all: intros (R & _); specialize (R _ eq_refl); destruct R as (R & _);
         discriminate R.
Qed.

Lemma encoder_left_behind_only_by_annotator_failure_witness :
  attach_fault (mkSetupEnv (fun p => p) None None None None
                  (Some (ForeignError "AnnotatorError")))
  = Some (ForeignError "AnnotatorError") /\
  option_map attached_to
    (annotator
       (snd (__init__ (mkSetupEnv (fun p => p) None None None None
                         (Some (ForeignError "AnnotatorError")))
               demo_simulator 2 1 30 "/World/cam" rgb tcp
               "rtsp://mediamtx:8554/stream" None)))
  = Some None.
Proof.
  destruct (encoder_left_behind_only_by_annotator_failure
              (mkSetupEnv (fun p => p) None None None None
                 (Some (ForeignError "AnnotatorError")))
              demo_simulator 2 1 30 "/World/cam" rgb tcp
              "rtsp://mediamtx:8554/stream" None
              (ForeignError "AnnotatorError")
              (subprocess_Popen (command demo)))
    as ([(G & _) | (_ & A & An)] & _).
  - reflexivity.
  - reflexivity.
  - discriminate G.
  - split; [exact A |]. rewrite An. reflexivity.
Defined.

(** ** Construction followed by [cleanup] or [stream] *)

(** ** Construction followed by [cleanup] or [stream] *)

Lemma constructed_ready (env : setup_env) (sim : Simulator) (w h f : Z)
    (cam : string) (ann : AnnotatorType) (tr : TransportType) (url : string)
    (usd_path : option string) :
  ready (constructed env sim w h f cam ann tr url usd_path).
Proof.
  split; [discriminate |]. eexists. split; reflexivity.
Qed.

Lemma simulator_seen_close_calls (env : setup_env) (sim : Simulator)
    (usd_path : option string) :
  close_calls (simulator_seen env sim usd_path) = close_calls sim.
Proof. unfold simulator_seen. destruct (truthy usd_path); reflexivity. Qed.

(** X12: set up and torn down at once.  A [cleanup] that follows a
    construction that ran through, with no pass of the loop in between,
    raises nothing, whatever has become of the encoder, and releases each
    resource exactly once: one close of the encoder's input channel, one
    wait for the child, one [close()] of the simulator; the encoder has
    received no byte and the simulation has not been stepped. *)
Theorem construction_then_cleanup_releases_once (env : setup_env)
    (sim : Simulator) (w h f : Z) (cam : string) (ann : AnnotatorType)
    (tr : TransportType) (url : string) (usd_path : option string)
    (how : closing) :
  fst (__init__ env sim w h f cam ann tr url usd_path) = Ok tt ->
  let c := cleanup how (snd (__init__ env sim w h f cam ann tr url usd_path)) in
  fst c = Ok tt /\ released (snd c) /\
  pipe_closes (snd c) = 1%nat /\ child_reaps (snd c) = 1%nat /\
  close_calls (simulator (snd c)) = S (close_calls sim) /\
  written (snd c) = [] /\ orchestrator_steps (snd c) = 0%nat /\
  piped (snd c) = [] /\ buffered (snd c) = [].
Proof.
  intros H. apply init_Ok_inv in H. destruct H as (_ & _ & _ & _ & _ & ->).
  cbn zeta.
  set (s := constructed env sim w h f cam ann tr url usd_path).
  assert (Hco : close_outcome how s = Ok tt).
  { apply close_outcome_Ok. left. reflexivity. }
  rewrite cleanup_cases, Hco. cbn [fst snd].
  split; [reflexivity |].
  split; [apply (cleaned_up_released s), cleaned_cleaned_up |].
  unfold pipe_closes, child_reaps, written, piped, buffered. simpl.
  rewrite simulator_seen_close_calls. auto 10.
Qed.

Lemma construction_then_cleanup_releases_once_witness :
  fst (cleanup encoder_gone demo) = Ok tt /\
  pipe_closes (snd (cleanup encoder_gone demo)) = 1%nat /\
  close_calls (simulator (snd (cleanup encoder_gone demo))) = 1%nat.
Proof.
  destruct (construction_then_cleanup_releases_once demo_env demo_simulator
              2 1 30 "/World/cam" rgb tcp "rtsp://mediamtx:8554/stream" None
              encoder_gone)
    as (E & _ & P & _ & C & _).
  - reflexivity.
  - split; [exact E |]. split; [exact P | exact C].
Defined.

(** X13: a constructed instance streams.  After a construction that ran
    through, in an environment in which no call raises, the annotator yields
    four-channel images that have pixels and the clock has moved, [stream]
    is still in its loop after any number of passes: the encoder has been
    written exactly the converted frames of the passes, in order, one step
    and one flush for each; every byte of them is in the pipe and none is
    waiting; and neither the encoder nor the simulator has been released. *)
Theorem constructed_instance_streams (env : setup_env) (sim : Simulator)
    (w h f : Z) (cam : string) (ann : AnnotatorType) (tr : TransportType)
    (url : string) (usd_path : option string) (start_time : Z)
    (ticks : list tick) (how : closing) :
  fst (__init__ env sim w h f cam ann tr url usd_path) = Ok tt ->
  Forall (benign start_time) ticks ->
  let r := stream start_time ticks how
             (snd (__init__ env sim w h f cam ann tr url usd_path)) in
  fst r = Streaming /\
  written (snd r) = map encoded ticks /\
  orchestrator_steps (snd r) = List.length ticks /\
  flushed (snd r) = List.length ticks /\
  piped (snd r) = List.concat (map encoded ticks) /\
  buffered (snd r) = [] /\
  close_calls (simulator (snd r)) = close_calls sim /\
  option_map stdin_closed (proc (snd r)) = Some false /\
  option_map waited (proc (snd r)) = Some false.
Proof.
  intros H Hb. apply init_Ok_inv in H. destruct H as (_ & _ & _ & _ & _ & ->).
  cbn zeta. rewrite stream_cases.
  set (s := constructed env sim w h f cam ann tr url usd_path).
  assert (Hr : ready (started s)).
  { split; [discriminate |]. eexists. split; reflexivity. }
  pose proof (loop_completes start_time ticks 0 (started s) Hb Hr) as Hl.
  destruct (loop_feeds start_time ticks 0 (started s) Hl) as (W & F & O & P & B).
  pose proof (loop_buffer_empty start_time ticks s eq_refl Hl) as B0.
  pose proof (loop_same_setup start_time ticks 0 (started s))
    as (_ & Sim & _ & _ & _ & Pr).
  destruct (loop start_time ticks 0 (started s)) as [[e |] s1];
    [discriminate |].
  cbn [fst snd] in *. split; [reflexivity |].
  rewrite B0, app_nil_r in P.
  rewrite W, F, O, P, Sim. simpl in Pr.
  destruct Pr as (p' & -> & _ & C & _ & Wt & _).
  simpl. rewrite C, Wt, simulator_seen_close_calls. auto 10.
Qed.

Lemma constructed_instance_streams_witness :
  fst (stream 5 [demo_tick; demo_tick] encoder_alive demo) = Streaming /\
  written (snd (stream 5 [demo_tick; demo_tick] encoder_alive demo))
  = [encoded demo_tick; encoded demo_tick].
Proof.
  destruct (constructed_instance_streams demo_env demo_simulator 2 1 30
              "/World/cam" rgb tcp "rtsp://mediamtx:8554/stream" None 5
              [demo_tick; demo_tick] encoder_alive) as (E & W & _).
  - reflexivity.
  - repeat constructor; try (exists demo_frame; repeat split; simpl; lia);
      vm_compute; discriminate.
  - split; [exact E | exact W].
Defined.

(** ** The worked run, continued *)

Lemma stream_after_cleanup_is_fatal_witness :
  let r := stream 0 [demo_tick; demo_tick] encoder_alive
             (snd (cleanup encoder_alive demo)) in
  fst r = Propagated (ValueError "write to closed file") /\
  written (snd r) = [] /\
  close_calls (simulator (snd r)) = 2%nat.
Proof.
  destruct (stream_after_cleanup_is_fatal 0 demo_tick [demo_tick]
              encoder_alive encoder_alive demo
              (subprocess_Popen (command demo))
              (mkNdarray 1 2 3
                 [Byte.x03; Byte.x02; Byte.x01; Byte.x06; Byte.x05; Byte.x04]))
    as (E & W & _ & _ & _ & _ & C).
  - reflexivity.
  - vm_compute. discriminate.
  - reflexivity.
  - reflexivity.
  - reflexivity.
  - cbn zeta. split; [exact E |]. split; [exact W | exact C].
Defined.

Lemma loop_reports_every_100_frames_witness :
  fst (loop 0 (repeat demo_tick 250) 0 demo) = None /\
  Z.of_nat (List.length (reports (snd (loop 0 (repeat demo_tick 250) 0 demo))))
  = 2.
Proof.
  split; [vm_compute; reflexivity |].
  destruct (loop_reports_every_100_frames 0 (repeat demo_tick 250) demo)
    as (_ & _ & L).
  - vm_compute. reflexivity.
  - rewrite L. vm_compute. reflexivity.
Defined.

(** The interrupt in the flush of the second frame, with the encoder still
    reading: it gets the frame at the close. *)
Lemma interrupt_ends_stream_normally_witness :
  let r := stream 0 ([demo_tick] ++ interrupt_before_flush_tick :: [demo_tick])
             encoder_alive demo in
  fst r = Returned /\ released (snd r) /\
  piped (snd r) = encoded demo_tick ++ encoded demo_tick.
Proof.
  destruct (interrupt_ends_stream_normally 0 [demo_tick] [demo_tick]
              interrupt_before_flush_tick encoder_alive demo)
    as (P & _ & _ & R).
  - reflexivity.
  - right. split; [reflexivity |]. split; [vm_compute; discriminate |].
    right. split; [reflexivity |]. right.
    split; [eexists; reflexivity |].
    eexists. split; [vm_compute; reflexivity |]. split; [reflexivity |].
    right. split; [reflexivity |]. left. reflexivity.
  - reflexivity.
  - cbn zeta. split; [exact P |]. split; [exact R | reflexivity].
Defined.

(** The interrupt in the simulation step, with the encoder gone. *)
Lemma interrupt_between_frames_returns_witness :
  let r := stream 0 ([demo_tick] ++ interrupt_tick :: [demo_tick])
             encoder_gone demo in
  fst r = Returned /\ released (snd r) /\ piped (snd r) = encoded demo_tick.
Proof.
  destruct (interrupt_between_frames_returns 0 [demo_tick] [demo_tick]
              interrupt_tick encoder_gone demo)
    as (P & _ & _ & R & _).
  - reflexivity.
  - reflexivity.
  - reflexivity.
  - cbn zeta. split; [exact P |]. split; [exact R | reflexivity].
Defined.

(** The encoder is gone at the write of the second frame, two bytes of
    which went through. *)
Lemma write_failure_is_fatal_after_cleanup_witness :
  let r := stream 0 ([demo_tick] ++ broken_write_tick :: [demo_tick])
             encoder_gone demo in
  fst r = Propagated BrokenPipeError /\ released (snd r) /\
  piped (snd r) = encoded demo_tick ++ [Byte.x03; Byte.x02].
Proof.
  destruct (write_failure_is_fatal_after_cleanup 0 [demo_tick] [demo_tick]
              broken_write_tick encoder_gone demo
              (mkNdarray 1 2 3
                 [Byte.x03; Byte.x02; Byte.x01; Byte.x06; Byte.x05; Byte.x04])
              BrokenPipeError)
    as (P & _ & R & _ & Pi & _).
  - split; [discriminate |]. eexists. split; reflexivity.
  - reflexivity.
  - reflexivity.
  - reflexivity.
  - reflexivity.
  - reflexivity.
  - reflexivity.
  - discriminate.
  - cbn zeta. split; [exact P |]. split; [exact R |]. rewrite Pi. reflexivity.
Defined.

(** The instance the failing input of C5 leaves, cleaned up again. *)
Lemma cleanup_after_cut_short_witness :
  let s := snd (loop 0 [demo_tick; broken_pipe_tick] 0 demo) in
  fst (cleanup encoder_gone s) = Raise BrokenPipeError /\
  fst (cleanup encoder_gone (snd (cleanup encoder_gone s))) = Ok tt /\
  released (snd (cleanup encoder_gone (snd (cleanup encoder_gone s)))).
Proof.
  destruct (cleanup_after_cut_short encoder_gone encoder_gone
              (snd (loop 0 [demo_tick; broken_pipe_tick] 0 demo))
              BrokenPipeError)
    as (E1 & _ & E2 & _ & R & _).
  - reflexivity.
  - cbn zeta. split; [exact E1 |]. split; [exact E2 | exact R].
Defined.
